(** * saic_client_tosate.ws_api: session, retry and telemetry logic

    A shallow embedding of [src/saic_client_tosate/ws_api.py].

    The Python methods mutate [self] and talk to the outside world
    (HTTP, the wall clock, [time.sleep], the publish hooks).  They are
    embedded as computations in a state-and-exception monad: a method
    reads the object and the chronological list of the calls made to
    the outside world so far, and yields its outcome, the updated
    object and the calls it made itself.  Everything that lives outside [ws_api.py] (the
    message coders, [requests], [urllib], [datetime], [bytes.decode])
    is taken as a parameter, gathered in the record [Externals]; the
    answers of stateful collaborators may depend on the whole history. *)

From Stdlib Require Import ZArith String Ascii List Bool Lia.
Import ListNotations.
Open Scope string_scope.
Open Scope list_scope.
Open Scope Z_scope.

(** ** Python values used by the module *)

Definition bytes := list Byte.byte.

(** [s[n:]] on a [str]: the suffix after the first [n] characters, the
    empty string when [n] is at least [len(s)]. *)
Fixpoint slice_from (n : nat) (s : string) : string :=
  match n, s with
  | O, _ => s
  | S _, EmptyString => EmptyString
  | S n', String _ s' => slice_from n' s'
  end.

(** ['0' * n] *)
Fixpoint zeros (n : nat) : string :=
  match n with
  | O => EmptyString
  | S n' => String "0"%char (zeros n')
  end.

(** Exceptions that escape the methods of the module. *)
Inductive exn : Type :=
| SystemExit (code : string)
| UnicodeDecodeError
| HTTPError
| TypeError.

(** What a method call ends with.  [OutOfFuel] is an artefact of the
    bounded unrolling of [while]; it is shown never to occur. *)
Inductive outcome (A : Type) : Type :=
| Return (a : A)
| Raise (e : exn)
| OutOfFuel.
Arguments Return {A} a.
Arguments Raise {A} e.
Arguments OutOfFuel {A}.

(** ** Data model (the fields [ws_api.py] reads or writes) *)

(** [ota_v1_1.data_model.Timestamp]: [get_timestamp()] as seconds on the
    time line of [datetime.datetime.now()]. *)
Record Timestamp : Type := { get_timestamp : Z }.

Record Header : Type := { protocol_version : Z }.

Record MpUserLoggingInReq : Type := { password : string }.

Record MpUserLoggingInRsp : Type := {
  rsp_token : string;
  rsp_token_expiration : option Timestamp
}.

Module V11.
Record MessageBody : Type := {
  uid : string;
  event_id : option string;
  error_message : option bytes
}.
Record Message (A : Type) : Type := {
  header : Header;
  body : MessageBody;
  application_data : A
}.
Arguments header {A} m.
Arguments body {A} m.
Arguments application_data {A} m.
End V11.

Record RvcReqParam : Type := { param_id : Z; param_value : bytes }.

Record OtaRvcReq : Type := {
  rvc_req_type : bytes;
  rvc_params : list RvcReqParam
}.

Record VinInfo : Type := { vin : string }.

Module V2.
Record MessageBody : Type := {
  event_id : option string;
  error_message : option bytes
}.
(** [MessageV2(body, application_data=None)] *)
Record Message (A : Type) : Type := {
  body : MessageBody;
  application_data : option A
}.
Arguments body {A} m.
Arguments application_data {A} m.

Definition set_event_id {A} (m : Message A) (e : string) : Message A :=
  {| body := {| event_id := Some e;
                error_message := error_message (body m) |};
     application_data := application_data m |}.
End V2.

(** The control-command response message is built without application
    data: [MessageV2(MessageBodyV2())]. *)
Definition CtrlRsp : Type := V2.Message Empty_set.

(** ** The outside world *)

(** [message.get_data()] as handed to [publish_json_value]. *)
Inductive json_data : Type :=
| LoginReqData (m : V11.Message MpUserLoggingInReq)
| LoginRspData (m : V11.Message MpUserLoggingInRsp)
| CtrlReqData (m : V2.Message OtaRvcReq)
| CtrlRspData (m : CtrlRsp).

Definition CookieJar : Type := list (string * string).

(** One call that leaves the module. *)
Inductive event : Type :=
| Publish_json (application_id : string) (version : Z) (data : json_data)
| Publish_raw (application_id : string) (version : Z) (raw : string)
| Post (url : string) (data : string) (cookies : option CookieJar)
| Get (url : string) (params : list (string * string))
| Sleep (seconds : Z)
| Now
| Print (text : string).

(** Values of the telemetry dict of [update_abrp]. *)
Inductive number : Type :=
| Int (z : Z)
| Quot (z : Z) (divisor : Z)   (* the float [z / divisor] *)
| Boolean (b : bool).

(** Oldest call first. *)
Definition history : Type := list event.

(** Everything the module imports.  A [None] answer of [requests_post]
    or [requests_get] stands for the exception raised by the call or by
    [raise_for_status()]; a [None] answer of [bytes_decode] for
    [UnicodeDecodeError].  [requests_post] answers with
    [response.content], the body as bytes, and [response.cookies]. *)
Record Externals : Type := {
  bytes_decode : bytes -> option string;
  urljoin : string -> string -> string;
  urlencode : list (string * number) -> string;
  datetime_now : history -> Z;
  requests_post :
    history -> string -> string -> option CookieJar -> option (bytes * CookieJar);
  requests_get :
    history -> string -> list (string * string) -> option string;
  (* MessageCoderV11 *)
  new_MessageBodyV11 : V11.MessageBody;
  new_MpUserLoggingInRsp : MpUserLoggingInRsp;
  v11_initialize_message :
    history -> string -> option string -> string -> Z -> Z ->
    V11.MessageBody -> V11.MessageBody;
  v11_encode_request : V11.Message MpUserLoggingInReq -> string;
  v11_decode_response :
    string -> V11.Message MpUserLoggingInRsp -> V11.Message MpUserLoggingInRsp;
  (* MessageCoderV21 *)
  new_MessageBodyV2 : V2.MessageBody;
  v2_initialize_message :
    history -> string -> string -> string -> string -> Z -> Z ->
    V2.MessageBody -> V2.MessageBody;
  v2_encode_request : V2.Message OtaRvcReq -> string;
  v2_decode_response : string -> CtrlRsp -> CtrlRsp
}.

(** ** The monad *)

Module Py.
(** A computation on an object of type [S]: from the object and the
    calls made so far to the outcome, the object afterwards and the
    calls made by the computation, oldest first. *)
Definition M (S A : Type) : Type := S -> history -> outcome A * S * history.

Definition ret {S A} (a : A) : M S A := fun s _ => (Return a, s, []).

Definition bind {S A B} (c : M S A) (k : A -> M S B) : M S B :=
  fun s h =>
    match c s h with
    | (Return a, s1, n1) =>
        match k a s1 (h ++ n1) with
        | (o, s2, n2) => (o, s2, n1 ++ n2)
        end
    | (Raise e, s1, n1) => (Raise e, s1, n1)
    | (OutOfFuel, s1, n1) => (OutOfFuel, s1, n1)
    end.

Definition raise {S A} (e : exn) : M S A := fun s _ => (Raise e, s, []).

Definition out_of_fuel {S A} : M S A := fun s _ => (OutOfFuel, s, []).

Definition get_self {S} : M S S := fun s _ => (Return s, s, []).

Definition update_self {S} (f : S -> S) : M S unit :=
  fun s _ => (Return tt, f s, []).

Definition get_past {S} : M S history := fun s h => (Return h, s, []).

(** Make one call to the outside world. *)
Definition call {S} (e : event) : M S unit := fun s _ => (Return tt, s, [e]).
End Py.

Notation "x <- c ;; k" := (Py.bind c (fun x => k))
  (at level 61, c at next level, right associativity).
Notation "c ;;; k" := (Py.bind c (fun _ => k))
  (at level 61, right associativity).

(** ** class SaicApi *)

Definition UID_INIT : string :=
  "0000000000000000000000000000000000000000000000000#".

Record SaicApi : Type := {
  saic_uri : string;
  saic_user : string;
  saic_password : string;
  cookies : option CookieJar;
  uid : string;
  token : string;
  token_expiration : option Timestamp
}.

(** [SaicApi.__init__] *)
Definition SaicApi_init (saic_uri saic_user saic_password : string) : SaicApi :=
  {| saic_uri := saic_uri;
     saic_user := saic_user;
     saic_password := saic_password;
     cookies := None;
     uid := "";
     token := "";
     token_expiration := None |}.

Definition set_cookies (jar : CookieJar) (a : SaicApi) : SaicApi :=
  {| saic_uri := saic_uri a; saic_user := saic_user a;
     saic_password := saic_password a; cookies := Some jar;
     uid := uid a; token := token a;
     token_expiration := token_expiration a |}.

Definition set_uid (u : string) (a : SaicApi) : SaicApi :=
  {| saic_uri := saic_uri a; saic_user := saic_user a;
     saic_password := saic_password a; cookies := cookies a;
     uid := u; token := token a;
     token_expiration := token_expiration a |}.

Definition set_token (t : string) (a : SaicApi) : SaicApi :=
  {| saic_uri := saic_uri a; saic_user := saic_user a;
     saic_password := saic_password a; cookies := cookies a;
     uid := uid a; token := t;
     token_expiration := token_expiration a |}.

Definition set_token_expiration (t : Timestamp) (a : SaicApi) : SaicApi :=
  {| saic_uri := saic_uri a; saic_user := saic_user a;
     saic_password := saic_password a; cookies := cookies a;
     uid := uid a; token := token a;
     token_expiration := Some t |}.

Definition M : Type -> Type := Py.M SaicApi.

(** The value a method hands back: [None] when it has no [return]. *)
Inductive retval : Type :=
| PyNone
| PyMessageV2 (m : CtrlRsp).

Section Saic.
Context (X : Externals).

(** [login_request_message]'s uid argument, line 99. *)
Definition login_uid (saic_user : string) : string :=
  (slice_from (String.length saic_user) UID_INIT ++ saic_user)%string.

(** Modelled from the spec: [initialize_message] of the V1.1 coder,
    which is not part of [ws_api.py], "mutates a logical message in
    place to stamp routing/auth fields": it rewrites the body and
    leaves header and application data as they are. *)
Definition initialize_message_v11 (h : history) (uid : string)
           (token : option string) (application_id : string)
           (application_data_protocol_version message_id : Z)
           (m : V11.Message MpUserLoggingInReq)
  : V11.Message MpUserLoggingInReq :=
  {| V11.header := V11.header m;
     V11.body := v11_initialize_message X h uid token application_id
                   application_data_protocol_version message_id (V11.body m);
     V11.application_data := V11.application_data m |}.

(** Modelled from the spec: [initialize_message] of the V2.1 coder,
    which is not part of [ws_api.py]; it stamps uid, token, vin and
    the routing constants on the body and leaves the application data
    as it is. *)
Definition initialize_message_v2 (h : history) (uid token vin : string)
           (application_id : string)
           (application_data_protocol_version message_id : Z)
           (m : V2.Message OtaRvcReq) : V2.Message OtaRvcReq :=
  {| V2.body := v2_initialize_message X h uid token vin application_id
                  application_data_protocol_version message_id (V2.body m);
     V2.application_data := V2.application_data m |}.

Definition publish_raw_value (application_id : string) (version : Z)
           (raw : string) : M unit :=
  Py.call (Publish_raw application_id version raw).

Definition publish_json_value (application_id : string) (version : Z)
           (data : json_data) : M unit :=
  Py.call (Publish_json application_id version data).

Definition send_request (hex_message endpoint : string) : M string :=
  a <- Py.get_self ;;
  h <- Py.get_past ;;
  Py.call (Post endpoint hex_message (cookies a)) ;;;
  match requests_post X h endpoint hex_message (cookies a) with
  | None => Py.raise HTTPError
  | Some (content, jar) =>
      Py.update_self (set_cookies jar) ;;;
      match bytes_decode X content with
      | Some text => Py.ret text
      | None => Py.raise UnicodeDecodeError
      end
  end.

(** The request and the response message share the [header] object,
    and [logging_in_rsp] is the application data of the response
    message, so the fields read after decoding are those of the
    decoded message. *)
Definition login : M (V11.Message MpUserLoggingInRsp) :=
  a <- Py.get_self ;;
  let application_data := {| password := saic_password a |} in
  let header := {| protocol_version := 17 |} in
  let application_id := "501" in
  let application_data_protocol_version := 513 in
  h <- Py.get_past ;;
  let login_request_message :=
    initialize_message_v11 h
      (login_uid (saic_user a)) None application_id
      application_data_protocol_version 1
      {| V11.header := header;
         V11.body := new_MessageBodyV11 X;
         V11.application_data := application_data |} in
  publish_json_value application_id application_data_protocol_version
    (LoginReqData login_request_message) ;;;
  let login_request_hex := v11_encode_request X login_request_message in
  publish_raw_value application_id application_data_protocol_version
    login_request_hex ;;;
  login_response_hex <-
    send_request login_request_hex (urljoin X (saic_uri a) "/TAP.Web/ota.mp") ;;
  publish_raw_value application_id application_data_protocol_version
    login_response_hex ;;;
  let login_response_message :=
    v11_decode_response X login_response_hex
      {| V11.header := V11.header login_request_message;
         V11.body := new_MessageBodyV11 X;
         V11.application_data := new_MpUserLoggingInRsp X |} in
  let logging_in_rsp := V11.application_data login_response_message in
  publish_json_value application_id application_data_protocol_version
    (LoginRspData login_response_message) ;;;
  match V11.error_message (V11.body login_response_message) with
  | Some error_message =>
      match bytes_decode X error_message with
      | Some code => Py.raise (SystemExit code)
      | None => Py.raise UnicodeDecodeError
      end
  | None =>
      Py.update_self (set_uid (V11.uid (V11.body login_response_message))) ;;;
      Py.update_self (set_token (rsp_token logging_in_rsp)) ;;;
      match rsp_token_expiration logging_in_rsp with
      | Some te => Py.update_self (set_token_expiration te)
      | None => Py.ret tt
      end ;;;
      Py.ret login_response_message
  end.

Definition get_token : M string :=
  a <- Py.get_self ;;
  match token_expiration a with
  | Some token_expiration =>
      h <- Py.get_past ;;
      Py.call Now ;;;
      (if get_timestamp token_expiration <? datetime_now X h
       then login ;;; Py.ret tt
       else Py.ret tt)
  | None => Py.ret tt
  end ;;;
  a' <- Py.get_self ;;
  Py.ret (token a').

Definition send_vehicle_control_command (vin_info : VinInfo)
           (rvc_req_type : bytes) (rvc_params : list RvcReqParam)
           (event_id : option string) : M CtrlRsp :=
  let vehicle_control_req :=
    {| rvc_req_type := rvc_req_type;
       rvc_params := [] ++ rvc_params |} in
  let application_id := "510" in
  let application_data_protocol_version := 25857 in
  (* [self.uid] is evaluated before [self.get_token()] is called *)
  a0 <- Py.get_self ;;
  tok <- get_token ;;
  a <- Py.get_self ;;
  h <- Py.get_past ;;
  let initialized :=
    initialize_message_v2 h (uid a0) tok (vin vin_info)
      application_id application_data_protocol_version 1
      {| V2.body := new_MessageBodyV2 X;
         V2.application_data := Some vehicle_control_req |} in
  let vehicle_control_cmd_req_msg :=
    match event_id with
    | Some e => V2.set_event_id initialized e
    | None => initialized
    end in
  publish_json_value application_id application_data_protocol_version
    (CtrlReqData vehicle_control_cmd_req_msg) ;;;
  let vehicle_control_cmd_req_msg_hex :=
    v2_encode_request X vehicle_control_cmd_req_msg in
  publish_raw_value application_id application_data_protocol_version
    vehicle_control_cmd_req_msg_hex ;;;
  vehicle_control_cmd_rsp_msg_hex <-
    send_request vehicle_control_cmd_req_msg_hex
      (urljoin X (saic_uri a) "/TAP.Web/ota.mpv21") ;;
  publish_raw_value application_id application_data_protocol_version
    vehicle_control_cmd_rsp_msg_hex ;;;
  let vehicle_control_cmd_rsp_msg :=
    v2_decode_response X vehicle_control_cmd_rsp_msg_hex
      {| V2.body := new_MessageBodyV2 X; V2.application_data := None |} in
  publish_json_value application_id application_data_protocol_version
    (CtrlRspData vehicle_control_cmd_rsp_msg) ;;;
  Py.ret vehicle_control_cmd_rsp_msg.

(** The [while] loop of [send_vehicle_ctrl_cmd_with_retry], lines
    241-249; its value is the final content of the local variable
    [vehicle_control_cmd_rsp_msg]. *)
Fixpoint retry_loop (fuel : nat) (vin_info : VinInfo) (rvc_req_type : bytes)
         (rvc_params : list RvcReqParam)
         (vehicle_control_cmd_rsp_msg : CtrlRsp) (retry : Z) : M CtrlRsp :=
  match V2.error_message (V2.body vehicle_control_cmd_rsp_msg) with
  | Some _ =>
      if retry <? 3 then
        match fuel with
        | O => Py.out_of_fuel
        | S fuel' =>
            Py.call (Sleep 2) ;;;
            let event_id := V2.event_id (V2.body vehicle_control_cmd_rsp_msg) in
            rsp <- send_vehicle_control_command vin_info rvc_req_type
                     rvc_params event_id ;;
            retry_loop fuel' vin_info rvc_req_type rvc_params rsp (retry + 1)
        end
      else Py.ret vehicle_control_cmd_rsp_msg
  | None => Py.ret vehicle_control_cmd_rsp_msg
  end.

(** Unrolling bound handed to [retry_loop]; [retry_fuel_enough] shows
    that the loop stops by itself before it is used up. *)
Definition retry_fuel : nat := 3.

(** The method has no [return] statement. *)
Definition send_vehicle_ctrl_cmd_with_retry (vin_info : VinInfo)
           (rvc_req_type : bytes) (rvc_params : list RvcReqParam)
  : M retval :=
  vehicle_control_cmd_rsp_msg <-
    send_vehicle_control_command vin_info rvc_req_type rvc_params None ;;
  retry_loop retry_fuel vin_info rvc_req_type rvc_params
    vehicle_control_cmd_rsp_msg 1 ;;;
  Py.ret PyNone.

Definition lock_vehicle (vin_info : VinInfo) : M retval :=
  let rvc_params := [] in
  send_vehicle_ctrl_cmd_with_retry vin_info [Byte.x01] rvc_params ;;;
  Py.ret PyNone.

Definition unlock_vehicle (vin_info : VinInfo) : M retval :=
  let rvc_params := [] in
  let param1 := {| param_id := 4; param_value := [Byte.x00] |} in
  let rvc_params := rvc_params ++ [param1] in
  let param2 := {| param_id := 5; param_value := [Byte.x00] |} in
  let rvc_params := rvc_params ++ [param2] in
  let param3 := {| param_id := 6; param_value := [Byte.x00] |} in
  let rvc_params := rvc_params ++ [param3] in
  let param4 := {| param_id := 7; param_value := [Byte.x03] |} in
  let rvc_params := rvc_params ++ [param4] in
  let param5 := {| param_id := 255; param_value := [Byte.x00] |} in
  let rvc_params := rvc_params ++ [param5] in
  send_vehicle_ctrl_cmd_with_retry vin_info [Byte.x02] rvc_params ;;;
  Py.ret PyNone.

Definition start_rear_window_heat (vin_info : VinInfo) : M retval :=
  let rvc_params := [] in
  let param1 := {| param_id := 23; param_value := [Byte.x01] |} in
  let rvc_params := rvc_params ++ [param1] in
  let param2 := {| param_id := 255; param_value := [Byte.x00] |} in
  let rvc_params := rvc_params ++ [param2] in
  send_vehicle_ctrl_cmd_with_retry vin_info [Byte.x20] rvc_params ;;;
  Py.ret PyNone.

Definition stop_rear_window_heat (vin_info : VinInfo) : M retval :=
  let rvc_params := [] in
  let param1 := {| param_id := 23; param_value := [Byte.x00] |} in
  let rvc_params := rvc_params ++ [param1] in
  let param2 := {| param_id := 255; param_value := [Byte.x00] |} in
  let rvc_params := rvc_params ++ [param2] in
  send_vehicle_ctrl_cmd_with_retry vin_info [Byte.x20] rvc_params ;;;
  Py.ret PyNone.
End Saic.

(** ** class AbrpApi *)

(** The decoded status objects, with the accessors [update_abrp] uses.
    An accessor that the method tests against [None] is optional, and
    so are the mileage and the electric range, which the vehicle may
    leave out and which the method compares with 0 without a test; the
    others are dereferenced without a test.  [is_charging], [is_parked],
    [get_power], [get_voltage] and [get_current] hold what the methods
    of the same names return. *)
Record RvsWgs84Point : Type := {
  latitude : Z;
  longitude : Z;
  altitude : Z
}.

Record RvsWayPoint : Type := {
  get_position : option RvsWgs84Point;
  speed : Z;
  heading : Z
}.

Record Timestamp4Short : Type := { seconds : Z }.

Record RvsPosition : Type := {
  get_way_point : option RvsWayPoint;
  timestamp_4_short : Timestamp4Short
}.

Record RvmsBasicStatus : Type := {
  exterior_temperature : Z;
  mileage : option Z;
  fuel_range_elec : option Z
}.

Record OtaRvmVehicleStatusResp25857 : Type := {
  get_gps_position : option RvsPosition;
  get_basic_vehicle_status : RvmsBasicStatus;
  is_charging : bool;
  is_parked : bool
}.

Record OtaChrgMangDataResp : Type := {
  bmsPackSOCDsp : Z;
  get_power : number;
  get_voltage : number;
  get_current : number
}.

Record AbrpApi : Type := {
  abrp_api_key : option string;
  abrp_user_token : option string
}.

Section Abrp.
Context (X : Externals).

Definition tlm_send_url : string := "https://api.iternio.com/1/tlm/send".

(** The dict [data] of lines 44-66, in insertion order; [None] when
    the comparison of an absent mileage or range with 0 raises
    [TypeError]. *)
Definition tlm_data (gps : RvsPosition) (way_point : RvsWayPoint)
           (position : RvsWgs84Point)
           (vehicle_status : OtaRvmVehicleStatusResp25857)
           (charge_status : OtaChrgMangDataResp)
  : option (list (string * number)) :=
  let data :=
    [ ("utc", Int (seconds (timestamp_4_short gps)));
      ("soc", Quot (bmsPackSOCDsp charge_status) 10);
      ("power", get_power charge_status);
      ("speed", Quot (speed way_point) 10);
      ("lat", Quot (latitude position) 1000000);
      ("lon", Quot (longitude position) 1000000);
      ("is_charging", Boolean (is_charging vehicle_status));
      ("is_parked", Boolean (is_parked vehicle_status));
      ("heading", Int (heading way_point));
      ("elevation", Int (altitude position));
      ("voltage", get_voltage charge_status);
      ("current", get_current charge_status) ] in
  let exterior_temperature :=
    exterior_temperature (get_basic_vehicle_status vehicle_status) in
  let data :=
    if negb (exterior_temperature =? -128)
    then data ++ [("ext_temp", Int exterior_temperature)] else data in
  match mileage (get_basic_vehicle_status vehicle_status) with
  | None => None
  | Some mileage =>
      let data :=
        if 0 <? mileage
        then data ++ [("odometer", Quot mileage 10)] else data in
      match fuel_range_elec (get_basic_vehicle_status vehicle_status) with
      | None => None
      | Some range_elec =>
          let data :=
            if 0 <? range_elec
            then data ++ [("est_battery_range", Quot range_elec 10)]
            else data in
          Some data
      end
  end.

(** The method reads [self] and never assigns to it. *)
Definition update_abrp
           (vehicle_status : option OtaRvmVehicleStatusResp25857)
           (charge_status : option OtaChrgMangDataResp)
  : Py.M AbrpApi unit :=
  self <- Py.get_self ;;
  match abrp_api_key self, abrp_user_token self with
  | Some api_key, Some user_token =>
      match vehicle_status with
      | Some vs =>
          match get_gps_position vs with
          | Some gps =>
              match get_way_point gps with
              | Some way_point =>
                  match get_position way_point with
                  | Some position =>
                      if (0 <? latitude position)
                         && (0 <? longitude position)
                      then
                        match charge_status with
                        | Some cs =>
                            match tlm_data gps way_point position vs cs with
                            | None => Py.raise TypeError
                            | Some data =>
                                let params :=
                                  [ ("api_key", api_key);
                                    ("token", user_token);
                                    ("tlm", urlencode X data) ] in
                                h <- Py.get_past ;;
                                Py.call (Get tlm_send_url params) ;;;
                                match requests_get X h tlm_send_url params with
                                | None => Py.raise HTTPError
                                | Some content =>
                                    Py.call (Print ("ABRP: " ++ content)%string)
                                end
                            end
                        | None => Py.ret tt
                        end
                      else Py.ret tt
                  | None => Py.ret tt
                  end
              | None => Py.ret tt
              end
          | None => Py.ret tt
          end
      | None => Py.ret tt
      end
  | _, _ => Py.ret tt
  end.
End Abrp.

(** ** Reading a history *)

(** What the retry coordinator lets the outside see: a control request
    handed to the publish hook (and then posted), a decoded control
    response, a blocking delay. *)
Inductive obs : Type :=
| Attempt (m : V2.Message OtaRvcReq)
| Response (r : CtrlRsp)
| Delay (seconds : Z).

Definition observe_event (e : event) : list obs :=
  match e with
  | Publish_json _ _ (CtrlReqData m) => [Attempt m]
  | Publish_json _ _ (CtrlRspData r) => [Response r]
  | Sleep s => [Delay s]
  | _ => []
  end.

Definition observe (h : history) : list obs := flat_map observe_event h.

Definition is_attempt (o : obs) : bool :=
  match o with Attempt _ => true | _ => false end.

(** Number of control requests issued. *)
Definition attempts (o : list obs) : nat := List.length (filter is_attempt o).

(** The decoded control responses, oldest first. *)
Definition responses (o : list obs) : list CtrlRsp :=
  flat_map (fun x => match x with Response r => [r] | _ => [] end) o.

(** [login()] publishes its request first thing, once per call. *)
Definition is_login_request (e : event) : bool :=
  match e with Publish_json _ _ (LoginReqData _) => true | _ => false end.

Definition login_calls (h : history) : nat :=
  List.length (filter is_login_request h).

Definition is_network_call (e : event) : bool :=
  match e with Post _ _ _ | Get _ _ => true | _ => false end.

Definition network_calls (h : history) : nat :=
  List.length (filter is_network_call h).

Definition has_error (r : CtrlRsp) : bool :=
  match V2.error_message (V2.body r) with Some _ => true | None => false end.

(** ** A scripted outside world, for concrete runs *)

Module Script.
Definition is_post (e : event) : bool :=
  match e with Post _ _ _ => true | _ => false end.

(** The server answers the [n]-th POST with the [n]-th line of the
    script, and with a transport fault once the script is used up. *)
Definition post (script : list string) (h : history) (url data : string)
           (jar : option CookieJar) : option (bytes * CookieJar) :=
  match nth_error script (List.length (filter is_post h)) with
  | Some content =>
      Some (list_byte_of_string content, [("JSESSIONID", content)])
  | None => None
  end.

(** Bytes decode to the text they spell, except the line ["garbled"],
    which stands for a body that is not valid UTF-8. *)
Definition decode (b : bytes) : option string :=
  if String.eqb (string_of_list_byte b) "garbled" then None
  else Some (string_of_list_byte b).

(** Login answers: ["denied"] carries an error payload, ["session"] a
    token without expiration, anything else a token that expires at
    time 1000. *)
Definition decode_login (hex : string)
           (m : V11.Message MpUserLoggingInRsp)
  : V11.Message MpUserLoggingInRsp :=
  if String.eqb hex "denied" then
    {| V11.header := V11.header m;
       V11.body := {| V11.uid := ""; V11.event_id := None;
                      V11.error_message := Some [Byte.x65; Byte.x72; Byte.x72] |};
       V11.application_data := V11.application_data m |}
  else
    {| V11.header := V11.header m;
       V11.body := {| V11.uid := "uid-7"; V11.event_id := None;
                      V11.error_message := None |};
       V11.application_data :=
         {| rsp_token := hex;
            rsp_token_expiration :=
              if String.eqb hex "session" then None
              else Some {| get_timestamp := 1000 |} |} |}.

(** Control answers: ["done"] is a plain success, ["anon"] an error
    without event id, anything else an error whose event id is the
    answer itself. *)
Definition decode_ctrl (hex : string) (m : CtrlRsp) : CtrlRsp :=
  if String.eqb hex "done" then
    {| V2.body := {| V2.event_id := None; V2.error_message := None |};
       V2.application_data := None |}
  else if String.eqb hex "anon" then
    {| V2.body := {| V2.event_id := None;
                     V2.error_message := Some [Byte.x65] |};
       V2.application_data := None |}
  else
    {| V2.body := {| V2.event_id := Some hex;
                     V2.error_message := Some [Byte.x65] |};
       V2.application_data := None |}.

Definition externals (script : list string) (now : Z) : Externals :=
  {| bytes_decode := decode;
     urljoin := fun base path => (base ++ path)%string;
     urlencode := fun _ => "tlm";
     datetime_now := fun _ => now;
     requests_post := post script;
     requests_get := fun _ _ _ => Some "ok";
     new_MessageBodyV11 :=
       {| V11.uid := ""; V11.event_id := None; V11.error_message := None |};
     new_MpUserLoggingInRsp :=
       {| rsp_token := ""; rsp_token_expiration := None |};
     v11_initialize_message := fun _ u _ _ _ _ b =>
       {| V11.uid := u; V11.event_id := V11.event_id b;
          V11.error_message := V11.error_message b |};
     v11_encode_request := fun _ => "login";
     v11_decode_response := decode_login;
     new_MessageBodyV2 :=
       {| V2.event_id := None; V2.error_message := None |};
     v2_initialize_message := fun _ _ _ _ _ _ _ b =>
       {| V2.event_id := Some "0"; V2.error_message := V2.error_message b |};
     v2_encode_request := fun _ => "ctrl";
     v2_decode_response := decode_ctrl |}.

Definition api : SaicApi := SaicApi_init "https://host" "abc" "secret".

(** A client that logged in before; its token expires at time 500. *)
Definition logged_in : SaicApi :=
  set_token_expiration {| get_timestamp := 500 |}
    (set_token "old-token" (set_uid "uid-7" api)).

Definition car : VinInfo := {| vin := "VIN0001" |}.

(** A parked car with a position fix, and its charging status. *)
Definition position : RvsWgs84Point :=
  {| latitude := 48137154; longitude := 11576124; altitude := 519 |}.

Definition way_point : RvsWayPoint :=
  {| get_position := Some position; speed := 0; heading := 90 |}.

Definition gps : RvsPosition :=
  {| get_way_point := Some way_point;
     timestamp_4_short := {| seconds := 1700000000 |} |}.

Definition status : OtaRvmVehicleStatusResp25857 :=
  {| get_gps_position := Some gps;
     get_basic_vehicle_status :=
       {| exterior_temperature := 12; mileage := Some 123456;
          fuel_range_elec := Some 2500 |};
     is_charging := false;
     is_parked := true |}.

Definition charge : OtaChrgMangDataResp :=
  {| bmsPackSOCDsp := 805; get_power := Quot 0 1;
     get_voltage := Quot 3980 10; get_current := Quot 0 1 |}.

(** The same car when its status reports no electric range. *)
Definition status_without_range : OtaRvmVehicleStatusResp25857 :=
  {| get_gps_position := Some gps;
     get_basic_vehicle_status :=
       {| exterior_temperature := 12; mileage := Some 123456;
          fuel_range_elec := None |};
     is_charging := false;
     is_parked := true |}.
End Script.

(** ** Runs, described from the outside *)

Section Runs.
Context (X : Externals).

(** The pieces of a [login] call: the request it builds, the calls it
    makes up to the POST, the answer of the transport, and the
    message decoded from an answer. *)
Definition login_request (a : SaicApi) (h : history)
  : V11.Message MpUserLoggingInReq :=
  initialize_message_v11 X h (login_uid (saic_user a)) None "501" 513 1
    {| V11.header := {| protocol_version := 17 |};
       V11.body := new_MessageBodyV11 X;
       V11.application_data := {| password := saic_password a |} |}.

Definition login_response (content : string)
  : V11.Message MpUserLoggingInRsp :=
  v11_decode_response X content
    {| V11.header := {| protocol_version := 17 |};
       V11.body := new_MessageBodyV11 X;
       V11.application_data := new_MpUserLoggingInRsp X |}.

Definition login_calls_made (a : SaicApi) (h : history) : history :=
  let hex := v11_encode_request X (login_request a h) in
  [ Publish_json "501" 513 (LoginReqData (login_request a h));
    Publish_raw "501" 513 hex;
    Post (urljoin X (saic_uri a) "/TAP.Web/ota.mp") hex (cookies a) ].

(** How a POST ends: with a transport fault, with a body that does
    not decode, or with a decoded body; the last two bring cookies. *)
Inductive answer : Type :=
| Answered (content : string) (jar : CookieJar)
| Fault
| Garbled (jar : CookieJar).

Definition read_answer (r : option (bytes * CookieJar)) : answer :=
  match r with
  | None => Fault
  | Some (body, jar) =>
      match bytes_decode X body with
      | Some content => Answered content jar
      | None => Garbled jar
      end
  end.

Definition login_answer (a : SaicApi) (h : history) : answer :=
  read_answer
    (requests_post X (h ++ firstn 2 (login_calls_made a h))
       (urljoin X (saic_uri a) "/TAP.Web/ota.mp")
       (v11_encode_request X (login_request a h)) (cookies a)).

Definition returned {A} (o : outcome A) : bool :=
  match o with Return _ => true | _ => false end.

(** The body of a control request is exactly what the coder stamped
    on a fresh body for this vehicle: nothing was attached to it. *)
Definition stamped_by_coder (vin_info : VinInfo) (b : V2.MessageBody) : Prop :=
  exists h u t,
    b = v2_initialize_message X h u t (vin vin_info) "510" 25857 1
          (new_MessageBodyV2 X).

(** A well-formed request for the command [(rvc_req_type, rvc_params)],
    sent with the event-id argument [event_id]. *)
Definition request_ok (vin_info : VinInfo) (rvc_req_type : bytes)
           (rvc_params : list RvcReqParam) (event_id : option string)
           (m : V2.Message OtaRvcReq) : Prop :=
  V2.application_data m =
    Some {| rvc_req_type := rvc_req_type; rvc_params := rvc_params |} /\
  match event_id with
  | Some e => V2.event_id (V2.body m) = Some e
  | None => stamped_by_coder vin_info (V2.body m)
  end.

(** The observations of one command from its [k]-th attempt on, the
    attempt being sent with event-id argument [eid]; the flag tells
    whether the coordinator comes to its end or is cut short by an
    exception. *)
Inductive chain (vin_info : VinInfo) (rvc_req_type : bytes)
          (rvc_params : list RvcReqParam)
  : Z -> option string -> list obs -> bool -> Prop :=
| chain_aborted k eid :
    chain vin_info rvc_req_type rvc_params k eid [] false
| chain_fault k eid m :
    request_ok vin_info rvc_req_type rvc_params eid m ->
    chain vin_info rvc_req_type rvc_params k eid [Attempt m] false
| chain_done k eid m r :
    request_ok vin_info rvc_req_type rvc_params eid m ->
    has_error r = false \/ 3 <= k ->
    chain vin_info rvc_req_type rvc_params k eid [Attempt m; Response r] true
| chain_retry k eid m r rest ret :
    request_ok vin_info rvc_req_type rvc_params eid m ->
    has_error r = true ->
    k < 3 ->
    chain vin_info rvc_req_type rvc_params (k + 1)
      (V2.event_id (V2.body r)) rest ret ->
    chain vin_info rvc_req_type rvc_params k eid
      (Attempt m :: Response r :: Delay 2 :: rest) ret.
End Runs.

(** The position fix the telemetry forwarder looks at: the position of
    the way point of the GPS position of the vehicle status, absent as
    soon as one of them is. *)
Definition position_fix (vehicle_status : option OtaRvmVehicleStatusResp25857)
  : option RvsWgs84Point :=
  match vehicle_status with
  | Some vs =>
      match get_gps_position vs with
      | Some gps =>
          match get_way_point gps with
          | Some way_point => get_position way_point
          | None => None
          end
      | None => None
      end
  | None => None
  end.

Definition is_ctrl_request (e : event) : bool :=
  match e with Publish_json _ _ (CtrlReqData _) => true | _ => false end.

(** The calls that ask something of the server: a request handed to
    the publish hook, a POST, a GET. *)
Definition is_request (e : event) : bool :=
  match e with
  | Publish_json _ _ (CtrlReqData _) => true
  | Publish_json _ _ (LoginReqData _) => true
  | Post _ _ _ => true
  | Get _ _ => true
  | _ => false
  end.

(** The traffic of a run is accounted for: reading its calls in order,
    every control or login request handed to the publish hook is at
    once published in its encoded form and posted, in that form, to
    its path under the base URI, and there is no POST or GET besides
    these. *)
Inductive accounted (X : Externals) (uri : string) : history -> Prop :=
| accounted_nil : accounted X uri []
| accounted_control m jar rest :
    accounted X uri rest ->
    accounted X uri
      (Publish_json "510" 25857 (CtrlReqData m)
       :: Publish_raw "510" 25857 (v2_encode_request X m)
       :: Post (urljoin X uri "/TAP.Web/ota.mpv21") (v2_encode_request X m) jar
       :: rest)
| accounted_login m jar rest :
    accounted X uri rest ->
    accounted X uri
      (Publish_json "501" 513 (LoginReqData m)
       :: Publish_raw "501" 513 (v11_encode_request X m)
       :: Post (urljoin X uri "/TAP.Web/ota.mp") (v11_encode_request X m) jar
       :: rest)
| accounted_other e rest :
    is_request e = false ->
    accounted X uri rest ->
    accounted X uri (e :: rest).


(** The four actuation commands. *)
Inductive actuation : Type := Lock | Unlock | HeatOn | HeatOff.

Definition actuate (X : Externals) (c : actuation) : VinInfo -> M retval :=
  match c with
  | Lock => lock_vehicle X
  | Unlock => unlock_vehicle X
  | HeatOn => start_rear_window_heat X
  | HeatOff => stop_rear_window_heat X
  end.

(** Marker and parameter list of each actuation command, as the
    methods build them. *)
Definition command_of (c : actuation) : bytes * list RvcReqParam :=
  match c with
  | Lock => ([Byte.x01], [])
  | Unlock =>
      ([Byte.x02],
       [ {| param_id := 4; param_value := [Byte.x00] |};
         {| param_id := 5; param_value := [Byte.x00] |};
         {| param_id := 6; param_value := [Byte.x00] |};
         {| param_id := 7; param_value := [Byte.x03] |};
         {| param_id := 255; param_value := [Byte.x00] |} ])
  | HeatOn =>
      ([Byte.x20],
       [ {| param_id := 23; param_value := [Byte.x01] |};
         {| param_id := 255; param_value := [Byte.x00] |} ])
  | HeatOff =>
      ([Byte.x20],
       [ {| param_id := 23; param_value := [Byte.x00] |};
         {| param_id := 255; param_value := [Byte.x00] |} ])
  end.

(** ** Further readings of a run *)

(** [data[key]] on the telemetry dict: the value stored last under
    [key], if any. *)
Fixpoint dict_get (key : string) (data : list (string * number))
  : option number :=
  match data with
  | [] => None
  | (k, v) :: rest =>
      match dict_get key rest with
      | Some v' => Some v'
      | None => if String.eqb k key then Some v else None
      end
  end.

(** The keys every telemetry dict starts with. *)
Definition tlm_base_keys : list string :=
  [ "utc"; "soc"; "power"; "speed"; "lat"; "lon"; "is_charging";
    "is_parked"; "heading"; "elevation"; "voltage"; "current" ].

(** The blocking delays of a run, in seconds, oldest first. *)
Definition delays (o : list obs) : list Z :=
  flat_map (fun x => match x with Delay s => [s] | _ => [] end) o.

Definition is_print (e : event) : bool :=
  match e with Print _ => true | _ => false end.

(** The event id argument of [send_vehicle_control_command], applied to
    a stamped body as lines 264-265 do. *)
Definition with_event_id (event_id : option string) (b : V2.MessageBody)
  : V2.MessageBody :=
  match event_id with
  | Some e => {| V2.event_id := Some e;
                 V2.error_message := V2.error_message b |}
  | None => b
  end.

(** The last observation of a run, if there is one. *)
Fixpoint final (o : list obs) : option obs :=
  match o with
  | [] => None
  | [x] => Some x
  | _ :: rest => final rest
  end.

(** Seconds spent in blocking delays. *)
Definition time_slept (o : list obs) : Z := fold_right Z.add 0 (delays o).

(** The network calls of a run are its control requests and its
    logins. *)
Definition balanced (new : history) : Prop :=
  network_calls new = (attempts (observe new) + login_calls new)%nat.

(** ** The queries and the alarm switches of SaicApi *)

Record OtaRvmVehicleStatusReq : Type := { veh_status_req_type : Z }.

Record StartEndNumber : Type := { start_number : Z; end_number : Z }.

Record MessageListReq : Type := {
  start_end_number : StartEndNumber;
  message_group : string
}.

(** [alarm_setting_type] holds the [value] of a member of the enum
    [MpAlarmSettingType]. *)
Record AlarmSwitch : Type := {
  alarm_setting_type : Z;
  alarm_switch : bool;
  function_switch : bool
}.

Record AlarmSwitchReq : Type := {
  alarm_switch_list : list AlarmSwitch;
  pin : string
}.

Module V3.
Record MessageBody : Type := {
  event_id : option string;
  error_message : option bytes
}.
(** [MessageV30(body, application_data=None)] *)
Record Message (A : Type) : Type := {
  body : MessageBody;
  application_data : option A
}.
Arguments body {A} m.
Arguments application_data {A} m.

Definition set_event_id {A} (m : Message A) (e : string) : Message A :=
  {| body := {| event_id := Some e;
                error_message := error_message (body m) |};
     application_data := application_data m |}.
End V3.

(** [message.body.event_id = event_id] on a V1.1 message. *)
Definition set_event_id_v11 {A} (m : V11.Message A) (e : string)
  : V11.Message A :=
  {| V11.header := V11.header m;
     V11.body := {| V11.uid := V11.uid (V11.body m);
                    V11.event_id := Some e;
                    V11.error_message := V11.error_message (V11.body m) |};
     V11.application_data := V11.application_data m |}.

(** [create_alarm_switch], on the value of the enum member. *)
Definition create_alarm_switch (alarm_setting_type : Z) : AlarmSwitch :=
  {| alarm_setting_type := alarm_setting_type;
     alarm_switch := true;
     function_switch := true |}.

(** Exceptions of the operations below: those of [exn], and the
    [ValueError] of [set_alarm_switches]. *)
Inductive qexn : Type :=
| Escaped (e : exn)
| ValueError (msg : string).

Inductive qoutcome (A : Type) : Type :=
| QReturn (a : A)
| QRaise (e : qexn)
| QOutOfFuel.
Arguments QReturn {A} a.
Arguments QRaise {A} e.
Arguments QOutOfFuel {A}.

Declare Scope query_scope.

Section Queries.
(** [ota_v1_1.data_model.MessageListResp]: [ws_api.py] creates it and
    hands it on without looking inside. *)
Context {MessageListResp : Type}.

(** [message.get_data()] of the messages of these operations. *)
Inductive query_data : Type :=
| StatusReqData (m : V2.Message OtaRvmVehicleStatusReq)
| StatusRspData (m : V2.Message OtaRvmVehicleStatusResp25857)
| ChrgReqData (m : V3.Message Empty_set)
| ChrgRspData (m : V3.Message OtaChrgMangDataResp)
| MessageListReqData (m : V11.Message MessageListReq)
| MessageListRspData (m : V11.Message MessageListResp)
| AlarmReqData (m : V11.Message AlarmSwitchReq)
| AlarmRspData (m : V11.Message unit).

(** The calls of these operations: the calls known so far, and the
    publish hook on the new kinds of message. *)
Inductive qevent : Type :=
| Base (e : event)
| Publish_query (application_id : string) (version : Z) (data : query_data).

Definition qhistory : Type := list qevent.

(** What the collaborators of [Externals] get to see of a history. *)
Definition base_of (h : qhistory) : history :=
  flat_map (fun e => match e with Base e => [e] | Publish_query _ _ _ => [] end) h.

(** What these operations import beyond [Externals].  The coder
    objects are those of the login and the control commands, so their
    [initialize_message] is the one of [Externals]; encoding and
    decoding differ with the application data. *)
Record Coders : Type := {
  MpAlarmSettingType : list Z;
  str_encode : string -> bytes;
  md5_hexdigest : bytes -> string;
  v11_encode_alarm_switch_request : V11.Message AlarmSwitchReq -> string;
  v11_decode_alarm_switch_response :
    string -> V11.Message unit -> V11.Message unit;
  new_MessageListResp : MessageListResp;
  v11_encode_message_list_request : V11.Message MessageListReq -> string;
  v11_decode_message_list_response :
    string -> V11.Message MessageListResp -> V11.Message MessageListResp;
  new_OtaRvmVehicleStatusResp25857 : OtaRvmVehicleStatusResp25857;
  v2_encode_status_request : V2.Message OtaRvmVehicleStatusReq -> string;
  v2_decode_status_response :
    string -> V2.Message OtaRvmVehicleStatusResp25857 ->
    V2.Message OtaRvmVehicleStatusResp25857;
  (* MessageCoderV30 *)
  new_MessageBodyV3 : V3.MessageBody;
  new_OtaChrgMangDataResp : OtaChrgMangDataResp;
  v3_initialize_message :
    history -> string -> string -> string -> string -> Z -> Z ->
    V3.MessageBody -> V3.MessageBody;
  v3_encode_request : V3.Message Empty_set -> string;
  v3_decode_response :
    string -> V3.Message OtaChrgMangDataResp -> V3.Message OtaChrgMangDataResp
}.

(** The monad of these operations, as [Py.M] on the wider history. *)
Definition QM (A : Type) : Type :=
  SaicApi -> qhistory -> qoutcome A * SaicApi * qhistory.

Definition q_ret {A} (a : A) : QM A := fun s _ => (QReturn a, s, []).

Definition q_bind {A B} (c : QM A) (k : A -> QM B) : QM B :=
  fun s h =>
    match c s h with
    | (QReturn a, s1, n1) =>
        match k a s1 (h ++ n1) with
        | (o, s2, n2) => (o, s2, n1 ++ n2)
        end
    | (QRaise e, s1, n1) => (QRaise e, s1, n1)
    | (QOutOfFuel, s1, n1) => (QOutOfFuel, s1, n1)
    end.

Definition q_raise {A} (e : qexn) : QM A := fun s _ => (QRaise e, s, []).

Definition q_get_self : QM SaicApi := fun s _ => (QReturn s, s, []).

Definition q_get_past : QM qhistory := fun s h => (QReturn h, s, []).

Definition q_call (e : qevent) : QM unit := fun s _ => (QReturn tt, s, [e]).

(** Run a computation of [M] here: it sees the calls it knows and its
    own calls join the history. *)
Definition q_lift {A} (c : M A) : QM A :=
  fun s h =>
    match c s (base_of h) with
    | (Return a, s1, n1) => (QReturn a, s1, map Base n1)
    | (Raise e, s1, n1) => (QRaise (Escaped e), s1, map Base n1)
    | (OutOfFuel, s1, n1) => (QOutOfFuel, s1, map Base n1)
    end.

Notation "x <- c ;; k" := (q_bind c (fun x => k))
  (at level 61, c at next level, right associativity) : query_scope.
Notation "c ;;; k" := (q_bind c (fun _ => k))
  (at level 61, right associativity) : query_scope.
Local Open Scope query_scope.

Context (X : Externals) (C : Coders).

Definition publish_query_value (application_id : string) (version : Z)
           (data : query_data) : QM unit :=
  q_call (Publish_query application_id version data).

(** [hash_md5] *)
Definition hash_md5 (password : string) : string :=
  md5_hexdigest C (str_encode C password).

(** As for the login and the control commands, [initialize_message],
    which is not part of [ws_api.py], is modelled from the spec in the
    four operations below: it stamps the body and leaves header and
    application data as they are.  [self.uid] is evaluated before
    [self.get_token()] is called. *)

Definition get_vehicle_status (vin_info : VinInfo) (event_id : option string)
  : QM (V2.Message OtaRvmVehicleStatusResp25857) :=
  let vehicle_status_req := {| veh_status_req_type := 2 |} in
  let application_id := "511" in
  let application_data_protocol_version := 25857 in
  a0 <- q_get_self ;;
  tok <- q_lift (get_token X) ;;
  a <- q_get_self ;;
  h <- q_get_past ;;
  let initialized :=
    {| V2.body :=
         v2_initialize_message X (base_of h) (uid a0) tok (vin vin_info)
           application_id application_data_protocol_version 1
           (new_MessageBodyV2 X);
       V2.application_data := Some vehicle_status_req |} in
  let vehicle_status_req_msg :=
    match event_id with
    | Some e => V2.set_event_id initialized e
    | None => initialized
    end in
  publish_query_value application_id application_data_protocol_version
    (StatusReqData vehicle_status_req_msg) ;;;
  let vehicle_status_req_hex :=
    v2_encode_status_request C vehicle_status_req_msg in
  q_lift (publish_raw_value application_id application_data_protocol_version
            vehicle_status_req_hex) ;;;
  vehicle_status_rsp_hex <-
    q_lift (send_request X vehicle_status_req_hex
              (urljoin X (saic_uri a) "/TAP.Web/ota.mpv21")) ;;
  q_lift (publish_raw_value application_id application_data_protocol_version
            vehicle_status_rsp_hex) ;;;
  let vehicle_status_rsp_msg :=
    v2_decode_status_response C vehicle_status_rsp_hex
      {| V2.body := new_MessageBodyV2 X;
         V2.application_data := Some (new_OtaRvmVehicleStatusResp25857 C) |} in
  publish_query_value application_id application_data_protocol_version
    (StatusRspData vehicle_status_rsp_msg) ;;;
  q_ret vehicle_status_rsp_msg.

Definition get_charging_status (vin_info : VinInfo) (event_id : option string)
  : QM (V3.Message OtaChrgMangDataResp) :=
  let application_id := "516" in
  let application_data_protocol_version := 768 in
  a0 <- q_get_self ;;
  tok <- q_lift (get_token X) ;;
  a <- q_get_self ;;
  h <- q_get_past ;;
  let initialized :=
    {| V3.body :=
         v3_initialize_message C (base_of h) (uid a0) tok (vin vin_info)
           application_id application_data_protocol_version 5
           (new_MessageBodyV3 C);
       V3.application_data := None |} in
  let chrg_mgmt_data_req_msg :=
    match event_id with
    | Some e => V3.set_event_id initialized e
    | None => initialized
    end in
  publish_query_value application_id application_data_protocol_version
    (ChrgReqData chrg_mgmt_data_req_msg) ;;;
  let chrg_mgmt_data_req_hex := v3_encode_request C chrg_mgmt_data_req_msg in
  q_lift (publish_raw_value application_id application_data_protocol_version
            chrg_mgmt_data_req_hex) ;;;
  chrg_mgmt_data_rsp_hex <-
    q_lift (send_request X chrg_mgmt_data_req_hex
              (urljoin X (saic_uri a) "/TAP.Web/ota.mpv30")) ;;
  q_lift (publish_raw_value application_id application_data_protocol_version
            chrg_mgmt_data_rsp_hex) ;;;
  let chrg_mgmt_data_rsp_msg :=
    v3_decode_response C chrg_mgmt_data_rsp_hex
      {| V3.body := new_MessageBodyV3 C;
         V3.application_data := Some (new_OtaChrgMangDataResp C) |} in
  publish_query_value application_id application_data_protocol_version
    (ChrgRspData chrg_mgmt_data_rsp_msg) ;;;
  q_ret chrg_mgmt_data_rsp_msg.

(** [message_body] is the body of [message_list_req_msg], so the event
    id assigned to it after [initialize_message] lands in the message;
    the response message shares the [header] object of the request. *)
Definition get_message_list (event_id : option string)
  : QM (V11.Message MessageListResp) :=
  let message_list_request :=
    {| start_end_number := {| start_number := 1; end_number := 5 |};
       message_group := "ALARM" |} in
  let header := {| protocol_version := 18 |} in
  let application_id := "531" in
  let application_data_protocol_version := 513 in
  a0 <- q_get_self ;;
  tok <- q_lift (get_token X) ;;
  a <- q_get_self ;;
  h <- q_get_past ;;
  let initialized :=
    {| V11.header := header;
       V11.body :=
         v11_initialize_message X (base_of h) (uid a0) (Some tok)
           application_id application_data_protocol_version 1
           (new_MessageBodyV11 X);
       V11.application_data := message_list_request |} in
  let with_event_id :=
    match event_id with
    | Some e => set_event_id_v11 initialized e
    | None => initialized
    end in
  let message_list_req_msg :=
    {| V11.header := {| protocol_version := 18 |};
       V11.body := V11.body with_event_id;
       V11.application_data := V11.application_data with_event_id |} in
  publish_query_value application_id application_data_protocol_version
    (MessageListReqData message_list_req_msg) ;;;
  let message_list_req_hex :=
    v11_encode_message_list_request C message_list_req_msg in
  q_lift (publish_raw_value application_id application_data_protocol_version
            message_list_req_hex) ;;;
  message_list_rsp_hex <-
    q_lift (send_request X message_list_req_hex
              (urljoin X (saic_uri a) "/TAP.Web/ota.mp")) ;;
  q_lift (publish_raw_value application_id application_data_protocol_version
            message_list_rsp_hex) ;;;
  let message_list_rsp_msg :=
    v11_decode_message_list_response C message_list_rsp_hex
      {| V11.header := V11.header message_list_req_msg;
         V11.body := new_MessageBodyV11 X;
         V11.application_data := new_MessageListResp C |} in
  publish_query_value application_id application_data_protocol_version
    (MessageListRspData message_list_rsp_msg) ;;;
  q_ret message_list_rsp_msg.

(** The [for] loop of lines 126-127. *)
Definition append_alarm_switches (alarm_switch_list : list AlarmSwitch)
  : list AlarmSwitch :=
  fold_left (fun l setting_type => l ++ [create_alarm_switch setting_type])
    (MpAlarmSettingType C) alarm_switch_list.

(** The response message is built without application data,
    [MessageV11(header, MessageBodyV11())], and shares the [header]
    object of the request. *)
Definition set_alarm_switches : QM unit :=
  let alarm_switch_req :=
    {| alarm_switch_list := append_alarm_switches [];
       pin := hash_md5 "123456" |} in
  let header := {| protocol_version := 17 |} in
  let application_id := "521" in
  let application_data_protocol_version := 513 in
  a0 <- q_get_self ;;
  tok <- q_lift (get_token X) ;;
  a <- q_get_self ;;
  h <- q_get_past ;;
  let alarm_switch_req_message :=
    {| V11.header := header;
       V11.body :=
         v11_initialize_message X (base_of h) (uid a0) (Some tok)
           application_id application_data_protocol_version 1
           (new_MessageBodyV11 X);
       V11.application_data := alarm_switch_req |} in
  publish_query_value application_id application_data_protocol_version
    (AlarmReqData alarm_switch_req_message) ;;;
  let alarm_switch_request_hex :=
    v11_encode_alarm_switch_request C alarm_switch_req_message in
  q_lift (publish_raw_value application_id application_data_protocol_version
            alarm_switch_request_hex) ;;;
  alarm_switch_response_hex <-
    q_lift (send_request X alarm_switch_request_hex
              (urljoin X (saic_uri a) "/TAP.Web/ota.mp")) ;;
  q_lift (publish_raw_value application_id application_data_protocol_version
            alarm_switch_response_hex) ;;;
  let alarm_switch_response_message :=
    v11_decode_alarm_switch_response C alarm_switch_response_hex
      {| V11.header := V11.header alarm_switch_req_message;
         V11.body := new_MessageBodyV11 X;
         V11.application_data := tt |} in
  publish_query_value application_id application_data_protocol_version
    (AlarmRspData alarm_switch_response_message) ;;;
  match V11.error_message (V11.body alarm_switch_response_message) with
  | Some error_message =>
      match bytes_decode X error_message with
      | Some msg => q_raise (ValueError msg)
      | None => q_raise (Escaped UnicodeDecodeError)
      end
  | None => q_ret tt
  end.
End Queries.

(** A scripted world for the queries: the answer ["fault"] decodes to
    a message with an error payload, any other answer to one without;
    the message list holds the answer itself. *)
Module QScript.
Definition answer_body_v11 (hex : string) : V11.MessageBody :=
  {| V11.uid := "uid-7"; V11.event_id := None;
     V11.error_message :=
       if String.eqb hex "fault"
       then Some [Byte.x65; Byte.x72; Byte.x72] else None |}.

Definition coders : @Coders string :=
  {| MpAlarmSettingType := [0; 1; 2];
     str_encode := list_byte_of_string;
     md5_hexdigest := fun _ => "e10adc3949ba59abbe56e057f20f883e";
     v11_encode_alarm_switch_request := fun _ => "alarm";
     v11_decode_alarm_switch_response := fun hex m =>
       {| V11.header := V11.header m;
          V11.body := answer_body_v11 hex;
          V11.application_data := tt |};
     new_MessageListResp := "";
     v11_encode_message_list_request := fun _ => "list";
     v11_decode_message_list_response := fun hex m =>
       {| V11.header := V11.header m;
          V11.body := answer_body_v11 hex;
          V11.application_data := hex |};
     new_OtaRvmVehicleStatusResp25857 := Script.status;
     v2_encode_status_request := fun _ => "status";
     v2_decode_status_response := fun hex m =>
       {| V2.body :=
            {| V2.event_id := Some "ev";
               V2.error_message :=
                 if String.eqb hex "fault" then Some [Byte.x65] else None |};
          V2.application_data := V2.application_data m |};
     new_MessageBodyV3 :=
       {| V3.event_id := None; V3.error_message := None |};
     new_OtaChrgMangDataResp := Script.charge;
     v3_initialize_message := fun _ _ _ _ _ _ _ b => b;
     v3_encode_request := fun _ => "charge";
     v3_decode_response := fun hex m =>
       {| V3.body :=
            {| V3.event_id := Some "ev";
               V3.error_message :=
                 if String.eqb hex "fault" then Some [Byte.x65] else None |};
          V3.application_data := V3.application_data m |} |}.
End QScript.

(** * Properties *)

(** ** The monad *)

Lemma run_eta {A B C} (p : A * B * C) : p = (fst (fst p), snd (fst p), snd p).
Proof. destruct p as [[x y] z]. reflexivity. Qed.

Lemma observe_app h1 h2 : observe (h1 ++ h2) = observe h1 ++ observe h2.
Proof. unfold observe. apply flat_map_app. Qed.

Lemma observe_sleep s h : observe (Sleep s :: h) = Delay s :: observe h.
Proof. reflexivity. Qed.

(** Unfold the monad and the hooks down to the answers of the outside. *)
Ltac run :=
  unfold publish_json_value, publish_raw_value,
    Py.bind, Py.ret, Py.raise, Py.call, Py.get_self, Py.get_past,
    Py.update_self, Py.out_of_fuel in *;
  cbn [fst snd app] in *.

(** Bring the histories met along a run to the form [h ++ [e1; ...; en]]. *)
Ltac tidy :=
  repeat rewrite app_nil_r in *;
  repeat rewrite <- app_assoc in *;
  cbn [app] in *.

(** ** The login identifier *)

Lemma zeros_length n : String.length (zeros n) = n.
Proof. induction n as [| n IH]; simpl; congruence. Qed.

Lemma string_length_app (s t : string) :
  String.length (s ++ t)%string = (String.length s + String.length t)%nat.
Proof. induction s as [| c s IH]; simpl; congruence. Qed.

Lemma slice_from_zeros n k (s : string) :
  (n <= k)%nat ->
  slice_from n (zeros k ++ s)%string = (zeros (k - n) ++ s)%string.
Proof.
  revert k. induction n as [| n IH]; intros k Hk.
  - rewrite Nat.sub_0_r. reflexivity.
  - destruct k as [| k]; [lia |].
    simpl. apply IH. lia.
Qed.

Lemma UID_INIT_shape : UID_INIT = (zeros 49 ++ "#")%string.
Proof. reflexivity. Qed.

Lemma login_uid_short (user : string) :
  (String.length user < 50)%nat ->
  login_uid user = (zeros (49 - String.length user) ++ "#" ++ user)%string.
Proof.
  intros Hlen. unfold login_uid.
  rewrite UID_INIT_shape, slice_from_zeros by lia.
  induction (zeros (49 - String.length user)) as [| c z IH]; simpl.
  - reflexivity.
  - f_equal. exact IH.
Qed.

(** What [login] does, by the answer of the server. *)
Lemma login_transport_fault (X : Externals) a h :
  login_answer X a h = Fault ->
  login X a h = (Raise HTTPError, a, login_calls_made X a h).
Proof.
  unfold login_answer, read_answer, login, send_request, login_calls_made,
    login_request.
  run. cbn [firstn]. tidy.
  destruct (requests_post X _ _ _ _) as [[body jar] |];
    [destruct (bytes_decode X body); discriminate |].
  intros _. reflexivity.
Qed.

Lemma login_garbled (X : Externals) a h jar :
  login_answer X a h = Garbled jar ->
  login X a h =
  (Raise UnicodeDecodeError, set_cookies jar a, login_calls_made X a h).
Proof.
  unfold login_answer, read_answer, login, send_request, login_calls_made,
    login_request.
  run. cbn [firstn]. tidy.
  destruct (requests_post X _ _ _ _) as [[body jar'] |]; [| discriminate].
  destruct (bytes_decode X body); [discriminate |].
  intros H. injection H as ->. reflexivity.
Qed.

Lemma login_answered (X : Externals) a h content jar :
  login_answer X a h = Answered content jar ->
  let rsp := login_response X content in
  let made := login_calls_made X a h ++
              [ Publish_raw "501" 513 content;
                Publish_json "501" 513 (LoginRspData rsp) ] in
  login X a h =
  match V11.error_message (V11.body rsp) with
  | Some msg =>
      (Raise (match bytes_decode X msg with
              | Some code => SystemExit code
              | None => UnicodeDecodeError
              end), set_cookies jar a, made)
  | None =>
      (Return rsp,
       (match rsp_token_expiration (V11.application_data rsp) with
        | Some te => set_token_expiration te
        | None => fun a' => a'
        end)
         (set_token (rsp_token (V11.application_data rsp))
            (set_uid (V11.uid (V11.body rsp)) (set_cookies jar a))),
       made)
  end.
Proof.
  unfold login_answer, read_answer, login, send_request, login_calls_made,
    login_request, login_response.
  run. cbn [firstn]. tidy.
  destruct (requests_post X _ _ _ _) as [[body jar'] |]; [| discriminate].
  destruct (bytes_decode X body) as [text |]; [| discriminate].
  intros H. injection H as -> ->. cbn.
  destruct (V11.error_message _) as [msg |].
  - destruct (bytes_decode X msg); reflexivity.
  - cbn. destruct (rsp_token_expiration _); reflexivity.
Qed.

(** Split a statement on [login X a h] by the three ways its POST can
    end, rewriting the call to its result in each. *)
Ltac login_cases X a h :=
  let Hans := fresh "Hans" in
  let jar := fresh "jar" in
  let content := fresh "content" in
  destruct (login_answer X a h) as [content jar | | jar] eqn:Hans;
  [ rewrite (login_answered X a h content jar Hans)
  | rewrite (login_transport_fault X a h Hans)
  | rewrite (login_garbled X a h jar Hans) ].

(** ** Login *)

(** C3, as amended.  For every username shorter than the 50 characters
    of [UID_INIT], the identifier handed to the coder for the login
    request is 50 characters long and consists of zero-characters, then
    one ['#'], then the username; it is the first thing [login]
    publishes. *)
Theorem login_uid_padding (X : Externals) (a : SaicApi) (h : history) :
  (String.length (saic_user a) < 50)%nat ->
  let pad := zeros (49 - String.length (saic_user a)) in
  login_uid (saic_user a) = (pad ++ "#" ++ saic_user a)%string /\
  String.length (login_uid (saic_user a)) = 50%nat /\
  exists m rest,
    snd (login X a h) = Publish_json "501" 513 (LoginReqData m) :: rest /\
    V11.body m =
      v11_initialize_message X h (pad ++ "#" ++ saic_user a)%string None
        "501" 513 1 (new_MessageBodyV11 X).
Proof.
  intros Hlen pad.
  pose proof (login_uid_short (saic_user a) Hlen) as Huid.
  fold pad in Huid.
  split; [exact Huid |].
  split.
  - rewrite Huid. subst pad.
    rewrite !string_length_app, zeros_length.
    change (String.length "#") with 1%nat. lia.
  - exists (login_request X a h).
    destruct (login_answer X a h) as [content jar | | jar] eqn:Hans.
    + rewrite (login_answered X a h content jar Hans).
      eexists. split.
      * destruct (V11.error_message _); reflexivity.
      * unfold login_request. cbn. rewrite Huid. reflexivity.
    + rewrite (login_transport_fault X a h Hans).
      eexists. split; [reflexivity |].
      unfold login_request. cbn. rewrite Huid. reflexivity.
    + rewrite (login_garbled X a h jar Hans).
      eexists. split; [reflexivity |].
      unfold login_request. cbn. rewrite Huid. reflexivity.
Qed.

Lemma login_uid_padding_witness :
  login_uid "abc" = "0000000000000000000000000000000000000000000000#abc" /\
  String.length (login_uid "abc") = 50%nat.
Proof.
  destruct (login_uid_padding (Script.externals [] 0) Script.api []) as (H1 & H2 & _).
  - simpl. lia.
  - split; [exact H1 | exact H2].
Defined.

(** C3 as stated fails: the identifier submitted for ["abc"] is not the
    username behind a prefix of zero-characters, whatever its width. *)
Lemma login_uid_abc_not_zero_padded :
  ~ exists n, login_uid "abc" = (zeros n ++ "abc")%string.
Proof.
  intros [n H].
  assert (Hn : n = 47%nat).
  { apply (f_equal String.length) in H.
    rewrite string_length_app, zeros_length in H.
    change (String.length (login_uid "abc")) with 50%nat in H.
    change (String.length "abc") with 3%nat in H. lia. }
  subst n. vm_compute in H. discriminate H.
Qed.

(** C2, as amended.  A login whose decoded response carries no error
    payload overwrites the stored uid and access token with the values
    of that response whatever was stored before; it overwrites the
    stored expiration when the response supplies one, and otherwise
    keeps the expiration that was stored. *)
Theorem login_success_state (X : Externals) (a : SaicApi) (h : history)
        rsp a' new :
  login X a h = (Return rsp, a', new) ->
  V11.error_message (V11.body rsp) = None /\
  uid a' = V11.uid (V11.body rsp) /\
  token a' = rsp_token (V11.application_data rsp) /\
  token_expiration a' =
    match rsp_token_expiration (V11.application_data rsp) with
    | Some te => Some te
    | None => token_expiration a
    end.
Proof.
  destruct (login_answer X a h) as [content jar | | jar] eqn:Hans.
  - rewrite (login_answered X a h content jar Hans).
    destruct (V11.error_message _) eqn:Herr; [discriminate |].
    intros H. inversion H; subst. clear H.
    rewrite Herr.
    destruct (rsp_token_expiration _); cbn; auto.
  - rewrite (login_transport_fault X a h Hans). discriminate.
  - rewrite (login_garbled X a h jar Hans). discriminate.
Qed.

Lemma login_success_state_witness :
  exists rsp a' new,
    login (Script.externals ["tok"] 0) Script.logged_in [] = (Return rsp, a', new) /\
    token a' = "tok" /\
    token_expiration a' = Some {| get_timestamp := 1000 |}.
Proof.
  eexists _, _, _.
  split; [vm_compute; reflexivity |].
  match goal with
  | |- token ?a' = _ /\ _ =>
      destruct (login_success_state (Script.externals ["tok"] 0)
                  Script.logged_in [] _ a' _ eq_refl) as (_ & _ & Ht & He)
  end.
  split; [exact Ht | exact He].
Defined.

(** C2 as stated fails: a client whose stored token expires at 500 logs
    in again and gets a response without expiration; the login succeeds
    and the stored expiration is still 500, not the (absent) one of the
    response. *)
Lemma login_without_expiration_keeps_old :
  exists rsp a' new,
    login (Script.externals ["session"] 0) Script.logged_in [] =
      (Return rsp, a', new) /\
    V11.error_message (V11.body rsp) = None /\
    rsp_token_expiration (V11.application_data rsp) = None /\
    token_expiration a' = Some {| get_timestamp := 500 |} /\
    token_expiration a' <> rsp_token_expiration (V11.application_data rsp).
Proof.
  eexists _, _, _.
  split; [vm_compute; reflexivity |].
  repeat split; discriminate.
Qed.

(** C7.  If the decoded login response carries an error payload,
    [login] raises ([SystemExit] with the decoded payload, or the
    decoding error of the payload) and the stored uid, access token and
    expiration are what they were before the call. *)
Theorem login_error_aborts (X : Externals) (a : SaicApi) (h : history)
        out a' new m :
  login X a h = (out, a', new) ->
  In (Publish_json "501" 513 (LoginRspData m)) new ->
  V11.error_message (V11.body m) <> None ->
  (out = Raise UnicodeDecodeError \/ exists code, out = Raise (SystemExit code)) /\
  uid a' = uid a /\
  token a' = token a /\
  token_expiration a' = token_expiration a.
Proof.
  destruct (login_answer X a h) as [content jar | | jar] eqn:Hans.
  - rewrite (login_answered X a h content jar Hans).
    destruct (V11.error_message (V11.body (login_response X content))) as [msg |] eqn:Herr.
    + intros H _ _. inversion H; subst. clear H.
      split; [| cbn; auto].
      destruct (bytes_decode X msg); eauto.
    + intros H Hin Hm. exfalso. inversion H; subst. clear H.
      unfold login_calls_made in Hin. cbn in Hin.
      destruct Hin as [Hin | [Hin | [Hin | [Hin | [Hin | []]]]]];
        try discriminate Hin.
      inversion Hin; subst. congruence.
  - rewrite (login_transport_fault X a h Hans).
    intros H Hin _. exfalso. inversion H; subst. clear H.
    unfold login_calls_made in Hin. cbn in Hin.
    destruct Hin as [Hin | [Hin | [Hin | []]]]; discriminate Hin.
  - rewrite (login_garbled X a h jar Hans).
    intros H Hin _. exfalso. inversion H; subst. clear H.
    unfold login_calls_made in Hin. cbn in Hin.
    destruct Hin as [Hin | [Hin | [Hin | []]]]; discriminate Hin.
Qed.

Lemma login_error_aborts_witness :
  exists a' new,
    login (Script.externals ["denied"] 0) Script.logged_in [] =
      (Raise (SystemExit "err"), a', new) /\
    uid a' = "uid-7" /\ token a' = "old-token" /\
    token_expiration a' = Some {| get_timestamp := 500 |}.
Proof.
  eexists _, _.
  split; [vm_compute; reflexivity |].
  match goal with
  | |- uid ?a' = _ /\ _ =>
      destruct (login_error_aborts (Script.externals ["denied"] 0)
                  Script.logged_in [] _ a' _
                  (login_response (Script.externals ["denied"] 0) "denied")
                  eq_refl)
        as (_ & Hu & Ht & He)
  end.
  - vm_compute. do 4 right. left. reflexivity.
  - vm_compute. discriminate.
  - repeat split; assumption.
Defined.

(** ** Token refresh *)

Lemma login_calls_of_login (X : Externals) (a : SaicApi) (h : history) :
  login_calls (snd (login X a h)) = 1%nat.
Proof.
  destruct (login_answer X a h) as [content jar | | jar] eqn:Hans.
  - rewrite (login_answered X a h content jar Hans).
    destruct (V11.error_message _); reflexivity.
  - rewrite (login_transport_fault X a h Hans). reflexivity.
  - rewrite (login_garbled X a h jar Hans). reflexivity.
Qed.

Lemma observe_login (X : Externals) (a : SaicApi) (h : history) :
  observe (snd (login X a h)) = [].
Proof.
  destruct (login_answer X a h) as [content jar | | jar] eqn:Hans.
  - rewrite (login_answered X a h content jar Hans).
    destruct (V11.error_message _); reflexivity.
  - rewrite (login_transport_fault X a h Hans). reflexivity.
  - rewrite (login_garbled X a h jar Hans). reflexivity.
Qed.

Lemma login_never_out_of_fuel (X : Externals) (a : SaicApi) (h : history) :
  fst (fst (login X a h)) <> OutOfFuel.
Proof.
  destruct (login_answer X a h) as [content jar | | jar] eqn:Hans.
  - rewrite (login_answered X a h content jar Hans).
    destruct (V11.error_message _); discriminate.
  - rewrite (login_transport_fault X a h Hans). discriminate.
  - rewrite (login_garbled X a h jar Hans). discriminate.
Qed.

Lemma get_token_no_expiration (X : Externals) (a : SaicApi) (h : history) :
  token_expiration a = None ->
  get_token X a h = (Return (token a), a, []).
Proof. unfold get_token. run. intros ->. reflexivity. Qed.

Lemma get_token_still_valid (X : Externals) (a : SaicApi) (h : history) te :
  token_expiration a = Some te ->
  datetime_now X h <= get_timestamp te ->
  get_token X a h = (Return (token a), a, [Now]).
Proof.
  unfold get_token. run. intros -> Hle. tidy.
  destruct (Z.ltb_spec (get_timestamp te) (datetime_now X h)); [lia |].
  reflexivity.
Qed.

Lemma get_token_expired (X : Externals) (a : SaicApi) (h : history) te :
  token_expiration a = Some te ->
  get_timestamp te < datetime_now X h ->
  get_token X a h =
  match login X a (h ++ [Now]) with
  | (Return _, a', n) => (Return (token a'), a', Now :: n)
  | (Raise e, a', n) => (Raise e, a', Now :: n)
  | (OutOfFuel, a', n) => (OutOfFuel, a', Now :: n)
  end.
Proof.
  unfold get_token. run. intros -> Hlt. tidy.
  destruct (Z.ltb_spec (get_timestamp te) (datetime_now X h)); [| lia].
  destruct (login X a (h ++ [Now])) as [[o a1] n1].
  destruct o; cbn; tidy; reflexivity.
Qed.

Lemma login_return_published (X : Externals) (a : SaicApi) (h : history)
      rsp a' new :
  login X a h = (Return rsp, a', new) ->
  In (Publish_json "501" 513 (LoginRspData rsp)) new /\
  V11.error_message (V11.body rsp) = None /\
  token a' = rsp_token (V11.application_data rsp).
Proof.
  destruct (login_answer X a h) as [content jar | | jar] eqn:Hans.
  - rewrite (login_answered X a h content jar Hans).
    destruct (V11.error_message _) eqn:Herr; [discriminate |].
    intros H. inversion H; subst. clear H.
    split; [| split].
    + cbn. do 4 right. left. reflexivity.
    + exact Herr.
    + destruct (rsp_token_expiration _); reflexivity.
  - rewrite (login_transport_fault X a h Hans). discriminate.
  - rewrite (login_garbled X a h jar Hans). discriminate.
Qed.



(** ** The command dispatcher *)

(** Whatever [get_token] does, it shows nothing of a control command
    and it ends. *)
Lemma get_token_quiet (X : Externals) (a : SaicApi) (h : history) :
  observe (snd (get_token X a h)) = [] /\
  fst (fst (get_token X a h)) <> OutOfFuel.
Proof.
  destruct (token_expiration a) as [te |] eqn:Hte.
  - destruct (Z.lt_ge_cases (get_timestamp te) (datetime_now X h)) as [Hlt | Hge].
    + rewrite (get_token_expired X a h te Hte Hlt).
      pose proof (observe_login X a (h ++ [Now])) as Hobs.
      pose proof (login_never_out_of_fuel X a (h ++ [Now])) as Hfuel.
      destruct (login X a (h ++ [Now])) as [[o a1] n1].
      cbn [fst snd] in Hobs, Hfuel.
      destruct o; cbn; (split; [exact Hobs | congruence]).
    + rewrite (get_token_still_valid X a h te Hte Hge).
      split; [reflexivity | discriminate].
  - rewrite (get_token_no_expiration X a h Hte).
    split; [reflexivity | discriminate].
Qed.

(** One call of [send_vehicle_control_command]: either the login made
    on the way raised and no request left, or a well-formed request
    left and was answered, or its POST raised. *)
Lemma send_vehicle_control_command_run (X : Externals) vin_info rvc_req_type
      rvc_params event_id a h out a' new :
  send_vehicle_control_command X vin_info rvc_req_type rvc_params event_id a h
  = (out, a', new) ->
  (observe new = [] /\ exists e, out = Raise e) \/
  (exists m,
      request_ok X vin_info rvc_req_type rvc_params event_id m /\
      ((observe new = [Attempt m] /\ exists e, out = Raise e) \/
       (exists r, observe new = [Attempt m; Response r] /\ out = Return r))).
Proof.
  unfold send_vehicle_control_command, send_request. run. tidy.
  destruct (get_token_quiet X a h) as [Hobs Hfuel].
  destruct (get_token X a h) as [[o a1] n1].
  cbn [fst snd] in Hobs, Hfuel.
  destruct o as [tok | e |]; [| | congruence].
  - tidy.
    match goal with
    | |- context [Publish_json "510" 25857 (CtrlReqData ?m0)] => set (m := m0)
    end.
    assert (Hok : request_ok X vin_info rvc_req_type rvc_params event_id m).
    { subst m. split.
      - destruct event_id; reflexivity.
      - destruct event_id as [e |]; cbn; [reflexivity |].
        unfold stamped_by_coder. eauto. }
    destruct (requests_post X _ _ _ _) as [[body jar] |];
      [destruct (bytes_decode X body) as [content |] |]; cbn.
    + intros H. inversion H; subst. clear H.
      right. exists m. split; [exact Hok |]. right.
      eexists. split; [| reflexivity].
      rewrite observe_app, Hobs. reflexivity.
    + intros H. inversion H; subst. clear H.
      right. exists m. split; [exact Hok |]. left.
      split; [| eauto].
      rewrite observe_app, Hobs. reflexivity.
    + intros H. inversion H; subst. clear H.
      right. exists m. split; [exact Hok |]. left.
      split; [| eauto].
      rewrite observe_app, Hobs. reflexivity.
  - intros H. inversion H; subst. clear H.
    left. split; [exact Hobs | eauto].
Qed.

Lemma login_no_ctrl_request (X : Externals) (a : SaicApi) (h : history) :
  Forall (fun e => is_ctrl_request e = false) (snd (login X a h)).
Proof.
  destruct (login_answer X a h) as [content jar | | jar] eqn:Hans.
  - rewrite (login_answered X a h content jar Hans).
    destruct (V11.error_message _); repeat constructor.
  - rewrite (login_transport_fault X a h Hans). repeat constructor.
  - rewrite (login_garbled X a h jar Hans). repeat constructor.
Qed.

Lemma get_token_no_ctrl_request (X : Externals) (a : SaicApi) (h : history) :
  Forall (fun e => is_ctrl_request e = false) (snd (get_token X a h)).
Proof.
  destruct (token_expiration a) as [te |] eqn:Hte.
  - destruct (Z.lt_ge_cases (get_timestamp te) (datetime_now X h)) as [Hlt | Hge].
    + rewrite (get_token_expired X a h te Hte Hlt).
      pose proof (login_no_ctrl_request X a (h ++ [Now])) as Hq.
      destruct (login X a (h ++ [Now])) as [[o a1] n1].
      destruct o; constructor; auto.
    + rewrite (get_token_still_valid X a h te Hte Hge). repeat constructor.
  - rewrite (get_token_no_expiration X a h Hte). constructor.
Qed.

(** *** Every request goes out on the wire *)

Lemma accounted_quiet (X : Externals) (uri : string) (h : history) :
  Forall (fun e => is_request e = false) h -> accounted X uri h.
Proof.
  induction 1 as [| e h He Hh IH]; [constructor |].
  apply accounted_other; assumption.
Qed.

Lemma accounted_app (X : Externals) (uri : string) (h1 h2 : history) :
  accounted X uri h1 -> accounted X uri h2 -> accounted X uri (h1 ++ h2).
Proof.
  induction 1 as [| m jar rest H1 IH | m jar rest H1 IH | e rest He H1 IH];
    intros H2; cbn [app].
  - exact H2.
  - apply accounted_control. apply IH. exact H2.
  - apply accounted_login. apply IH. exact H2.
  - apply accounted_other; [exact He | apply IH; exact H2].
Qed.

(** A request handed to the publish hook is followed at once by its
    encoding, published and posted. *)
Lemma accounted_request_posted (X : Externals) (uri : string) (h : history) :
  accounted X uri h ->
  forall pre app v m post,
    h = pre ++ Publish_json app v (CtrlReqData m) :: post ->
    exists jar post',
      post = Publish_raw "510" 25857 (v2_encode_request X m)
             :: Post (urljoin X uri "/TAP.Web/ota.mpv21")
                  (v2_encode_request X m) jar
             :: post'.
Proof.
  induction 1 as [| m0 jar rest H1 IH | m0 jar rest H1 IH | e rest He H1 IH];
    intros pre app v m post Heq.
  - destruct pre; discriminate Heq.
  - destruct pre as [| e1 pre].
    + cbn in Heq. injection Heq as _ _ Hm Hpost. subst. eauto.
    + destruct pre as [| e2 pre]; [discriminate Heq |].
      destruct pre as [| e3 pre]; [discriminate Heq |].
      cbn in Heq. injection Heq as _ _ _ Heq.
      exact (IH _ _ _ _ _ Heq).
  - destruct pre as [| e1 pre]; [discriminate Heq |].
    destruct pre as [| e2 pre]; [discriminate Heq |].
    destruct pre as [| e3 pre]; [discriminate Heq |].
    cbn in Heq. injection Heq as _ _ _ Heq.
    exact (IH _ _ _ _ _ Heq).
  - destruct pre as [| e1 pre].
    + cbn in Heq. injection Heq as -> _. discriminate He.
    + cbn in Heq. injection Heq as _ Heq.
      exact (IH _ _ _ _ _ Heq).
Qed.


(** [login] and [get_token] leave the base URI alone, and all they
    post is the login request. *)
Lemma login_accounted (X : Externals) (a : SaicApi) (h : history) :
  accounted X (saic_uri a) (snd (login X a h)) /\
  saic_uri (snd (fst (login X a h))) = saic_uri a.
Proof.
  assert (Hmade : forall rest,
             Forall (fun e => is_request e = false) rest ->
             accounted X (saic_uri a) (login_calls_made X a h ++ rest)).
  { intros rest Hrest. unfold login_calls_made. cbn [app].
    apply accounted_login. apply accounted_quiet. exact Hrest. }
  destruct (login_answer X a h) as [content jar | | jar] eqn:Hans.
  - rewrite (login_answered X a h content jar Hans).
    destruct (V11.error_message _).
    + cbn [fst snd]. split; [| reflexivity].
      apply Hmade. repeat constructor.
    + cbn [fst snd]. split; [apply Hmade; repeat constructor |].
      destruct (rsp_token_expiration _); reflexivity.
  - rewrite (login_transport_fault X a h Hans). cbn [fst snd].
    split; [| reflexivity].
    rewrite <- (app_nil_r (login_calls_made X a h)). apply Hmade. constructor.
  - rewrite (login_garbled X a h jar Hans). cbn [fst snd].
    split; [| reflexivity].
    rewrite <- (app_nil_r (login_calls_made X a h)). apply Hmade. constructor.
Qed.

Lemma get_token_accounted (X : Externals) (a : SaicApi) (h : history) :
  accounted X (saic_uri a) (snd (get_token X a h)) /\
  saic_uri (snd (fst (get_token X a h))) = saic_uri a.
Proof.
  destruct (token_expiration a) as [te |] eqn:Hte.
  - destruct (Z.lt_ge_cases (get_timestamp te) (datetime_now X h)) as [Hlt | Hge].
    + rewrite (get_token_expired X a h te Hte Hlt).
      destruct (login_accounted X a (h ++ [Now])) as [Hacc Huri].
      destruct (login X a (h ++ [Now])) as [[o a1] n1].
      cbn [fst snd] in Hacc, Huri.
      destruct o; cbn [fst snd];
        (split; [apply accounted_other; [reflexivity | exact Hacc]
                | exact Huri]).
    + rewrite (get_token_still_valid X a h te Hte Hge). cbn [fst snd].
      split; [repeat constructor | reflexivity].
  - rewrite (get_token_no_expiration X a h Hte). cbn [fst snd].
    split; [constructor | reflexivity].
Qed.

Lemma send_vehicle_control_command_accounted (X : Externals) vin_info
      rvc_req_type rvc_params event_id a h :
  accounted X (saic_uri a)
    (snd (send_vehicle_control_command X vin_info rvc_req_type
            rvc_params event_id a h)) /\
  saic_uri (snd (fst (send_vehicle_control_command X vin_info rvc_req_type
                        rvc_params event_id a h))) = saic_uri a.
Proof.
  unfold send_vehicle_control_command, send_request. run. tidy.
  destruct (get_token_accounted X a h) as [Hacc Huri].
  destruct (get_token X a h) as [[o a1] n1].
  cbn [fst snd] in Hacc, Huri.
  destruct o as [tok | e |]; try (split; [exact Hacc | exact Huri]).
  tidy. rewrite Huri.
  destruct (requests_post X _ _ _ _) as [[body jar] |];
    [destruct (bytes_decode X body) as [content |] |]; cbn [fst snd];
    (split; [| exact Huri]);
    (apply accounted_app; [exact Hacc |]);
    apply accounted_control; repeat constructor.
Qed.

Lemma retry_loop_accounted (X : Externals) vin_info rvc_req_type rvc_params :
  forall fuel rsp k a h,
    accounted X (saic_uri a)
      (snd (retry_loop X fuel vin_info rvc_req_type rvc_params rsp k a h)).
Proof.
  induction fuel as [| fuel IH]; intros rsp k a h; cbn [retry_loop].
  - destruct (V2.error_message (V2.body rsp)); [| constructor].
    destruct (k <? 3); constructor.
  - destruct (V2.error_message (V2.body rsp)); [| constructor].
    destruct (k <? 3); [| constructor].
    run. tidy.
    destruct (send_vehicle_control_command_accounted X vin_info rvc_req_type
                rvc_params (V2.event_id (V2.body rsp)) a (h ++ [Sleep 2]))
      as [Hsend Huri].
    destruct (send_vehicle_control_command X vin_info rvc_req_type rvc_params
                (V2.event_id (V2.body rsp)) a (h ++ [Sleep 2]))
      as [[o a1] n1].
    cbn [fst snd] in Hsend, Huri.
    destruct o as [r | e |];
      try (cbn [fst snd]; apply accounted_other; [reflexivity | exact Hsend]).
    tidy.
    specialize (IH r (k + 1) a1 (h ++ Sleep 2 :: n1)).
    rewrite Huri in IH.
    destruct (retry_loop X fuel vin_info rvc_req_type rvc_params r (k + 1) a1
                (h ++ Sleep 2 :: n1)) as [[o2 a2] n2].
    cbn [fst snd] in *.
    apply accounted_other; [reflexivity |].
    apply accounted_app; assumption.
Qed.

(** Whatever the coordinator counts as an attempt went out on the wire,
    and nothing else did but the requests of the logins on the way. *)
Lemma coordinator_accounted (X : Externals) vin_info rvc_req_type rvc_params
      a h :
  accounted X (saic_uri a)
    (snd (send_vehicle_ctrl_cmd_with_retry X vin_info rvc_req_type
            rvc_params a h)).
Proof.
  unfold send_vehicle_ctrl_cmd_with_retry. run. tidy.
  destruct (send_vehicle_control_command_accounted X vin_info rvc_req_type
              rvc_params None a h) as [Hsend Huri].
  destruct (send_vehicle_control_command X vin_info rvc_req_type rvc_params
              None a h) as [[o a1] n1].
  cbn [fst snd] in Hsend, Huri.
  destruct o as [r | e |]; try exact Hsend.
  pose proof (retry_loop_accounted X vin_info rvc_req_type rvc_params
                retry_fuel r 1 a1 (h ++ n1)) as Hloop.
  rewrite Huri in Hloop.
  destruct (retry_loop X retry_fuel vin_info rvc_req_type rvc_params r 1 a1
              (h ++ n1)) as [[o2 a2] n2].
  cbn [fst snd] in Hloop.
  destruct o2; tidy; cbn [fst snd]; apply accounted_app; assumption.
Qed.

(** ** The retry coordinator *)

Lemma has_error_spec (r : CtrlRsp) :
  has_error r = true <-> V2.error_message (V2.body r) <> None.
Proof.
  unfold has_error. destruct (V2.error_message (V2.body r)); split;
    congruence.
Qed.

(** The loop after the answer [rsp] to attempt [k]: it ends without
    using up its fuel, and what it shows continues the chain. *)
Lemma retry_loop_chain (X : Externals) vin_info rvc_req_type rvc_params :
  forall fuel rsp k a h out a' new,
    3 - k <= Z.of_nat fuel ->
    retry_loop X fuel vin_info rvc_req_type rvc_params rsp k a h
    = (out, a', new) ->
    out <> OutOfFuel /\
    forall eid m,
      request_ok X vin_info rvc_req_type rvc_params eid m ->
      chain X vin_info rvc_req_type rvc_params k eid
        (Attempt m :: Response rsp :: observe new) (returned out).
Proof.
  induction fuel as [| fuel IH]; intros rsp k a h out a' new Hfuel Hrun.
  - cbn in Hrun. unfold has_error in *.
    destruct (V2.error_message (V2.body rsp)) eqn:Herr.
    + destruct (Z.ltb_spec k 3); [lia |].
      inversion Hrun; subst. split; [discriminate |].
      intros eid m Hok. apply chain_done; auto.
    + inversion Hrun; subst. split; [discriminate |].
      intros eid m Hok. apply chain_done; auto.
      left. unfold has_error. rewrite Herr. reflexivity.
  - cbn [retry_loop] in Hrun.
    destruct (V2.error_message (V2.body rsp)) eqn:Herr.
    + destruct (Z.ltb_spec k 3) as [Hlt | Hge].
      * run. tidy.
        destruct (send_vehicle_control_command X vin_info rvc_req_type
                    rvc_params (V2.event_id (V2.body rsp)) a (h ++ [Sleep 2]))
          as [[o a1] n1] eqn:Hsend.
        apply send_vehicle_control_command_run in Hsend.
        assert (Herr' : has_error rsp = true)
          by (unfold has_error; rewrite Herr; reflexivity).
        destruct Hsend as [[Hobs [e ->]] | (m' & Hok' & [[Hobs [e ->]] | (r & Hobs & ->)])].
        -- inversion Hrun; subst. split; [discriminate |].
           intros eid m Hok. rewrite observe_sleep, Hobs.
           apply chain_retry; auto. apply chain_aborted.
        -- inversion Hrun; subst. split; [discriminate |].
           intros eid m Hok. rewrite observe_sleep, Hobs.
           apply chain_retry; auto. apply chain_fault. exact Hok'.
        -- tidy.
           destruct (retry_loop X fuel vin_info rvc_req_type rvc_params r
                       (k + 1) a1 (h ++ Sleep 2 :: n1))
             as [[o2 a2] n2] eqn:Hloop.
           apply IH in Hloop; [| lia].
           destruct Hloop as [Hne Hchain].
           inversion Hrun; subst. split; [exact Hne |].
           intros eid m Hok. rewrite observe_sleep, observe_app, Hobs.
           apply chain_retry; auto.
           apply (Hchain _ m' Hok').
      * inversion Hrun; subst. split; [discriminate |].
        intros eid m Hok. apply chain_done; auto.
    + inversion Hrun; subst. split; [discriminate |].
      intros eid m Hok. apply chain_done; auto.
      left. unfold has_error. rewrite Herr. reflexivity.
Qed.

(** The coordinator as a whole: it never hands a message back, it never
    runs out of fuel, and what it shows is a chain from attempt 1. *)
Lemma send_vehicle_ctrl_cmd_with_retry_chain (X : Externals) vin_info
      rvc_req_type rvc_params a h out a' new :
  send_vehicle_ctrl_cmd_with_retry X vin_info rvc_req_type rvc_params a h
  = (out, a', new) ->
  (out = Return PyNone \/ exists e, out = Raise e) /\
  chain X vin_info rvc_req_type rvc_params 1 None (observe new) (returned out).
Proof.
  unfold send_vehicle_ctrl_cmd_with_retry. run. tidy.
  destruct (send_vehicle_control_command X vin_info rvc_req_type rvc_params
              None a h) as [[o a1] n1] eqn:Hsend.
  apply send_vehicle_control_command_run in Hsend.
  destruct Hsend as [[Hobs [e ->]] | (m & Hok & [[Hobs [e ->]] | (r & Hobs & ->)])].
  - intros H. inversion H; subst. split; [eauto |].
    rewrite Hobs. apply chain_aborted.
  - intros H. inversion H; subst. split; [eauto |].
    rewrite Hobs. apply chain_fault. exact Hok.
  - destruct (retry_loop X retry_fuel vin_info rvc_req_type rvc_params r 1
                a1 (h ++ n1)) as [[o2 a2] n2] eqn:Hloop.
    apply retry_loop_chain in Hloop; [| unfold retry_fuel; lia].
    destruct Hloop as [Hne Hchain].
    specialize (Hchain None m Hok).
    destruct o2 as [r2 | e |]; [| | congruence]; tidy.
    + intros H. inversion H; subst. split; [auto |].
      rewrite observe_app, Hobs. exact Hchain.
    + intros H. inversion H; subst. split; [eauto |].
      rewrite observe_app, Hobs. exact Hchain.
Qed.

(** Each actuation method is one call of the coordinator with its own
    marker and parameters. *)
Lemma actuate_run (X : Externals) (c : actuation) vin_info a h :
  actuate X c vin_info a h =
  send_vehicle_ctrl_cmd_with_retry X vin_info
    (fst (command_of c)) (snd (command_of c)) a h.
Proof.
  destruct c;
    unfold actuate, lock_vehicle, unlock_vehicle, start_rear_window_heat,
      stop_rear_window_heat, command_of;
    cbn [fst snd app]; unfold Py.bind at 1;
    match goal with
    | |- context [send_vehicle_ctrl_cmd_with_retry X vin_info ?t ?p a h] =>
        destruct (send_vehicle_ctrl_cmd_with_retry X vin_info t p a h)
          as [[o a1] n1] eqn:Hrun
    end;
    apply send_vehicle_ctrl_cmd_with_retry_chain in Hrun;
    destruct Hrun as [[-> | [e ->]] Hchain];
    unfold Py.ret; rewrite ?app_nil_r; reflexivity.
Qed.

(** *** Shapes of a chain *)

Section Chain.
Context (X : Externals) (vin_info : VinInfo) (marker : bytes)
        (params : list RvcReqParam).

Local Abbreviation chain' := (chain X vin_info marker params).
Local Abbreviation ok := (request_ok X vin_info marker params).

Lemma chain_attempts k eid o ret :
  chain' k eid o ret -> Z.of_nat (attempts o) <= Z.max 1 (4 - k).
Proof.
  induction 1 as [k eid | k eid m Hm | k eid m r Hm Hr
                  | k eid m r rest ret Hm Hr Hk Hrest IH].
  - cbn. lia.
  - cbn. lia.
  - cbn. lia.
  - change (attempts (Attempt m :: Response r :: Delay 2 :: rest))
      with (S (attempts rest)).
    lia.
Qed.

Lemma chain_first_answer k eid m r rest ret :
  chain' k eid (Attempt m :: Response r :: rest) ret ->
  has_error r = false -> rest = [].
Proof.
  intros H Hr. inversion H; subst; [reflexivity | congruence].
Qed.

Lemma chain_head k eid m post ret :
  chain' k eid (Attempt m :: post) ret -> ok eid m.
Proof. intros H. inversion H; subst; assumption. Qed.

(** Every attempt but the first comes right after an erroring answer
    to the attempt before it and one delay of 2 seconds, and is sent
    with the event id of that answer. *)
Lemma chain_later_attempt k eid o ret :
  chain' k eid o ret ->
  forall pre m post,
    o = pre ++ Attempt m :: post -> pre <> [] ->
    exists pre' m0 r,
      pre = pre' ++ [Attempt m0; Response r; Delay 2] /\
      has_error r = true /\
      ok (V2.event_id (V2.body r)) m.
Proof.
  induction 1 as [k eid | k eid m1 Hm | k eid m1 r1 Hm Hr
                  | k eid m1 r1 rest ret Hm Hr Hk Hrest IH];
    intros pre m post Heq Hpre.
  - destruct pre; discriminate.
  - destruct pre as [| x pre]; [congruence |].
    destruct pre; discriminate.
  - destruct pre as [| x pre]; [congruence |].
    destruct pre as [| y pre]; [discriminate |].
    destruct pre; discriminate.
  - destruct pre as [| x pre]; [congruence |].
    destruct pre as [| y pre]; [discriminate |].
    destruct pre as [| z pre]; [discriminate |].
    cbn in Heq. inversion Heq; subst. clear Heq.
    destruct pre as [| x pre].
    + exists [], m1, r1. cbn in Hrest.
      split; [reflexivity |]. split; [exact Hr |].
      eapply chain_head. exact Hrest.
    + destruct (IH (x :: pre) m post eq_refl) as (pre' & m0 & r & Hp & He & Ho);
        [discriminate |].
      exists (Attempt m1 :: Response r1 :: Delay 2 :: pre'), m0, r.
      rewrite Hp. auto.
Qed.

Lemma chain_every_attempt k eid o ret m :
  chain' k eid o ret -> In (Attempt m) o ->
  V2.application_data m =
    Some {| rvc_req_type := marker; rvc_params := params |}.
Proof.
  induction 1 as [k eid | k eid m1 Hm | k eid m1 r1 Hm Hr
                  | k eid m1 r1 rest ret Hm Hr Hk Hrest IH];
    cbn; intros Hin.
  - contradiction.
  - destruct Hin as [Hin | []]. inversion Hin; subst. apply Hm.
  - destruct Hin as [Hin | [Hin | []]]; [| discriminate].
    inversion Hin; subst. apply Hm.
  - destruct Hin as [Hin | [Hin | [Hin | Hin]]]; try discriminate.
    + inversion Hin; subst. apply Hm.
    + auto.
Qed.

Lemma chain_three_answers eid o ret r1 r2 r3 rest :
  chain' 1 eid o ret ->
  responses o = r1 :: r2 :: r3 :: rest ->
  rest = [] /\ attempts o = 3%nat /\ ret = true /\
  has_error r1 = true /\ has_error r2 = true.
Proof.
  intros Hc1 Hrsp.
  inversion Hc1 as [| | | ? ? m1 a1 o2 ? Hm1 He1 Hk1 Hc2]; subst;
    try discriminate Hrsp.
  cbn in Hrsp. injection Hrsp as -> Hrsp.
  inversion Hc2 as [| | | ? ? m2 a2 o3 ? Hm2 He2 Hk2 Hc3]; subst;
    try discriminate Hrsp.
  cbn in Hrsp. injection Hrsp as -> Hrsp.
  inversion Hc3 as [| | ? ? m3 a3 Hm3 He3 | ? ? m3 a3 o4 ? Hm3 He3 Hk3 Hc4];
    subst; try discriminate Hrsp; [| lia].
  cbn in Hrsp. injection Hrsp as -> <-.
  auto.
Qed.

(** An erroring answer to an attempt that is not the last one allowed
    is followed by the delay and then by the next attempt, sent with
    the event id of that answer, unless the call is cut short before
    the request is built. *)
Lemma chain_retries k eid o ret :
  chain' k eid o ret ->
  forall pre r post,
    o = pre ++ Response r :: post ->
    has_error r = true ->
    Z.of_nat (attempts pre) + k <= 3 ->
    exists rest,
      post = Delay 2 :: rest /\
      ((rest = [] /\ ret = false) \/
       exists m rest', rest = Attempt m :: rest' /\
                       ok (V2.event_id (V2.body r)) m).
Proof.
  induction 1 as [k eid | k eid m1 Hm | k eid m1 r1 Hm Hr
                  | k eid m1 r1 rest ret Hm Hr Hk Hrest IH];
    intros pre r post Heq Herr Hatt.
  - destruct pre; discriminate.
  - destruct pre as [| x pre]; [discriminate |].
    destruct pre; discriminate.
  - destruct pre as [| x pre]; [discriminate |].
    destruct pre as [| y pre].
    + cbn in Heq. injection Heq as <- <- _.
      change (attempts [Attempt m1]) with 1%nat in Hatt.
      destruct Hr as [Hr | Hr]; [congruence | lia].
    + destruct pre; discriminate.
  - destruct pre as [| x pre]; [discriminate |].
    destruct pre as [| y pre].
    + cbn in Heq. injection Heq as _ <- <-.
      exists rest. split; [reflexivity |].
      inversion Hrest; subst; eauto.
    + destruct pre as [| z pre]; [discriminate |].
      cbn in Heq. injection Heq as <- <- <- Heq.
      apply (IH pre r post Heq Herr).
      change (attempts (Attempt m1 :: Response r1 :: Delay 2 :: pre))
        with (S (attempts pre)) in Hatt.
      lia.
Qed.


End Chain.

(** The unrolling bound is never the reason the coordinator stops. *)
Lemma retry_fuel_enough (X : Externals) vin_info rvc_req_type rvc_params a h :
  fst (fst (send_vehicle_ctrl_cmd_with_retry X vin_info rvc_req_type
              rvc_params a h)) <> OutOfFuel.
Proof.
  destruct (send_vehicle_ctrl_cmd_with_retry_chain X vin_info rvc_req_type
              rvc_params a h _ _ _ (run_eta _)) as [[-> | [e ->]] _];
    discriminate.
Qed.

(** *** The claims on the coordinator *)

(** C5.  One invocation of the coordinator issues at most 3 attempts;
    when the answer to the 1st attempt carries no error payload nothing
    follows it; and every attempt after the first comes immediately
    after the erroring answer to the attempt before it and exactly one
    blocking delay of 2 seconds. *)
Theorem retry_bounded_and_spaced (X : Externals) vin_info rvc_req_type
        rvc_params a h out a' new :
  send_vehicle_ctrl_cmd_with_retry X vin_info rvc_req_type rvc_params a h
  = (out, a', new) ->
  (attempts (observe new) <= 3)%nat /\
  (forall m r rest,
      observe new = Attempt m :: Response r :: rest ->
      V2.error_message (V2.body r) = None -> rest = []) /\
  (forall pre m post,
      observe new = pre ++ Attempt m :: post -> pre <> [] ->
      exists pre' m0 r,
        pre = pre' ++ [Attempt m0; Response r; Delay 2] /\
        V2.error_message (V2.body r) <> None).
Proof.
  intros Hrun.
  apply send_vehicle_ctrl_cmd_with_retry_chain in Hrun.
  destruct Hrun as [_ Hchain].
  split; [| split].
  - pose proof (chain_attempts _ _ _ _ _ _ _ _ Hchain). lia.
  - intros m r rest Heq Herr. rewrite Heq in Hchain.
    eapply chain_first_answer; [exact Hchain |].
    unfold has_error. rewrite Herr. reflexivity.
  - intros pre m post Heq Hpre.
    destruct (chain_later_attempt _ _ _ _ _ _ _ _ Hchain pre m post Heq Hpre)
      as (pre' & m0 & r & Hp & He & _).
    exists pre', m0, r. split; [exact Hp |].
    apply has_error_spec. exact He.
Qed.

Lemma retry_bounded_and_spaced_witness :
  let new :=
    snd (send_vehicle_ctrl_cmd_with_retry
           (Script.externals ["e1"; "e2"; "e3"; "e4"] 0) Script.car
           [Byte.x01] [] Script.logged_in []) in
  attempts (observe new) = 3%nat /\ (attempts (observe new) <= 3)%nat.
Proof.
  split; [vm_compute; reflexivity |].
  exact (proj1 (retry_bounded_and_spaced _ _ _ _ _ _ _ _ _ (run_eta _))).
Defined.

(** C6, as amended.  The 1st attempt goes out with the body the coder
    stamped and no event id attached to it.  Every later attempt comes
    right after a decoded response and the delay; when that response
    carries an event id, the event id of the outgoing body equals it,
    and when it carries none, the body stays as the coder stamped it.
    An erroring answer to the 1st or the 2nd attempt is followed by the
    delay and by the next attempt, unless the call is cut short by an
    exception before that request is built.  Every request counted as
    an attempt is published in its encoded form and posted, in that
    form, to the control endpoint. *)
Theorem retry_carries_event_id (X : Externals) vin_info rvc_req_type
        rvc_params a h out a' new :
  send_vehicle_ctrl_cmd_with_retry X vin_info rvc_req_type rvc_params a h
  = (out, a', new) ->
  (forall m post,
      observe new = Attempt m :: post ->
      stamped_by_coder X vin_info (V2.body m)) /\
  (forall pre m post,
      observe new = pre ++ Attempt m :: post -> pre <> [] ->
      exists pre' r,
        pre = pre' ++ [Response r; Delay 2] /\
        (V2.event_id (V2.body r) <> None ->
         V2.event_id (V2.body m) = V2.event_id (V2.body r)) /\
        (V2.event_id (V2.body r) = None ->
         stamped_by_coder X vin_info (V2.body m))) /\
  (forall pre r post,
      observe new = pre ++ Response r :: post ->
      V2.error_message (V2.body r) <> None ->
      (attempts pre < 3)%nat ->
      exists rest,
        post = Delay 2 :: rest /\
        ((rest = [] /\ exists e, out = Raise e) \/
         exists m rest', rest = Attempt m :: rest')) /\
  (forall pre app v m post,
      new = pre ++ Publish_json app v (CtrlReqData m) :: post ->
      exists jar post',
        post = Publish_raw "510" 25857 (v2_encode_request X m)
               :: Post (urljoin X (saic_uri a) "/TAP.Web/ota.mpv21")
                    (v2_encode_request X m) jar
               :: post').
Proof.
  intros Hrun.
  pose proof (coordinator_accounted X vin_info rvc_req_type rvc_params a h)
    as Hacc.
  rewrite Hrun in Hacc. cbn [snd] in Hacc.
  apply send_vehicle_ctrl_cmd_with_retry_chain in Hrun.
  destruct Hrun as [Hout Hchain].
  split; [| split; [| split]].
  - intros m post Heq. rewrite Heq in Hchain.
    apply chain_head in Hchain. apply Hchain.
  - intros pre m post Heq Hpre.
    destruct (chain_later_attempt _ _ _ _ _ _ _ _ Hchain pre m post Heq Hpre)
      as (pre' & m0 & r & Hp & _ & Hok).
    exists (pre' ++ [Attempt m0]), r.
    split.
    + rewrite Hp, <- app_assoc. reflexivity.
    + destruct Hok as [_ Hid].
      destruct (V2.event_id (V2.body r)) as [e |]; split; congruence.
  - intros pre r post Heq Herr Hatt.
    apply has_error_spec in Herr.
    destruct (chain_retries _ _ _ _ _ _ _ _ Hchain pre r post Heq Herr)
      as (rest & Hpost & Hrest); [lia |].
    exists rest. split; [exact Hpost |].
    destruct Hrest as [[-> Hret] | (m & rest' & -> & _)].
    + left. split; [reflexivity |].
      destruct Hout as [-> | Hout]; [discriminate Hret | exact Hout].
    + right. eauto.
  - exact (accounted_request_posted X _ _ Hacc).
Qed.

Lemma retry_carries_event_id_witness :
  match observe
          (snd (send_vehicle_ctrl_cmd_with_retry
                  (Script.externals ["e1"; "done"] 0) Script.car
                  [Byte.x01] [] Script.logged_in []))
  with
  | [Attempt _; Response r1; Delay _; Attempt m2; Response _] =>
      V2.event_id (V2.body r1) = Some "e1" /\
      V2.event_id (V2.body m2) = Some "e1"
  | _ => False
  end.
Proof.
  pose proof (proj1 (proj2 (retry_carries_event_id
                       (Script.externals ["e1"; "done"] 0) Script.car
                       [Byte.x01] [] Script.logged_in [] _ _ _ (run_eta _))))
    as H.
  set (o := observe _) in *.
  vm_compute in o. subst o. cbv beta iota.
  split; [reflexivity |].
  match goal with
  | |- V2.event_id (V2.body ?m2) = _ =>
      destruct (H [Attempt _; Response _; Delay 2] m2 [Response _] eq_refl)
        as (pre' & r & Hpre & Hid & _)
  end.
  - discriminate.
  - destruct pre' as [| x [| y pre']]; try discriminate Hpre.
    + injection Hpre as _ <-. apply Hid. discriminate.
    + apply (f_equal (@List.length obs)) in Hpre.
      cbn in Hpre. rewrite length_app in Hpre. cbn in Hpre. lia.
Defined.

(** C6 as stated fails: when the erroring answer to the 1st attempt
    carries no event id, the 2nd attempt goes out with the event id the
    coder stamped, which is not that of the answer. *)
Lemma retry_after_anonymous_error_keeps_coder_id :
  exists m1 r1 m2 r2,
    observe
      (snd (send_vehicle_ctrl_cmd_with_retry
              (Script.externals ["anon"; "done"] 0) Script.car
              [Byte.x01] [] Script.logged_in []))
    = [Attempt m1; Response r1; Delay 2; Attempt m2; Response r2] /\
    V2.error_message (V2.body r1) <> None /\
    V2.event_id (V2.body r1) = None /\
    V2.event_id (V2.body m2) = Some "0" /\
    V2.event_id (V2.body m2) <> V2.event_id (V2.body r1).
Proof.
  eexists _, _, _, _.
  split; [vm_compute; reflexivity |].
  repeat split; discriminate.
Qed.

(** C1, as amended.  An actuation command (lock, unlock, rear-window
    heater on or off) hands no response back to its caller: unless an
    exception escapes, the call returns [None].  Whenever three
    responses were decoded, which is the case when the 1st and the 2nd
    carry error payloads, the call made exactly three attempts, the 3rd
    response is the last one decoded, and the call returns [None]
    without raising, whether or not the 3rd response still carries an
    error payload. *)
Theorem actuation_returns_none (X : Externals) (c : actuation) vin_info
        a h out a' new :
  actuate X c vin_info a h = (out, a', new) ->
  (out = Return PyNone \/ exists e, out = Raise e) /\
  (forall r1 r2 r3 rest,
      responses (observe new) = r1 :: r2 :: r3 :: rest ->
      rest = [] /\
      attempts (observe new) = 3%nat /\
      out = Return PyNone /\
      V2.error_message (V2.body r1) <> None /\
      V2.error_message (V2.body r2) <> None).
Proof.
  rewrite actuate_run. intros Hrun.
  apply send_vehicle_ctrl_cmd_with_retry_chain in Hrun.
  destruct Hrun as [Hout Hchain].
  split; [exact Hout |].
  intros r1 r2 r3 rest Hrsp.
  destruct (chain_three_answers _ _ _ _ _ _ _ _ _ _ _ Hchain Hrsp)
    as (Hrest & Hatt & Hret & He1 & He2).
  repeat split; auto.
  - destruct Hout as [-> | [e ->]]; [reflexivity | discriminate Hret].
  - apply has_error_spec. exact He1.
  - apply has_error_spec. exact He2.
Qed.

Lemma actuation_returns_none_witness :
  let run :=
    actuate (Script.externals ["e1"; "e2"; "done"] 0) Lock Script.car
      Script.logged_in [] in
  List.length (responses (observe (snd run))) = 3%nat /\
  (fst (fst run) = Return PyNone \/ exists e, fst (fst run) = Raise e).
Proof.
  split; [vm_compute; reflexivity |].
  exact (proj1 (actuation_returns_none _ _ _ _ _ _ _ _ (run_eta _))).
Defined.

(** C1 as stated fails: a lock whose 1st and 2nd responses carry error
    payloads and whose 3rd does not returns [None], not that 3rd
    response. *)
Lemma lock_returns_none_not_the_response :
  exists a' new r1 r2 r3,
    lock_vehicle (Script.externals ["e1"; "e2"; "done"] 0) Script.car
      Script.logged_in [] = (Return PyNone, a', new) /\
    responses (observe new) = [r1; r2; r3] /\
    V2.error_message (V2.body r1) <> None /\
    V2.error_message (V2.body r2) <> None /\
    V2.error_message (V2.body r3) = None /\
    PyNone <> PyMessageV2 r3.
Proof.
  eexists _, _, _, _, _.
  split; [vm_compute; reflexivity |].
  split; [vm_compute; reflexivity |].
  repeat split; discriminate.
Qed.




(** ** The telemetry forwarder *)

Lemma update_abrp_skips (X : Externals) vehicle_status charge_status api h :
  abrp_api_key api = None \/ abrp_user_token api = None \/
  position_fix vehicle_status = None \/
  (exists p, position_fix vehicle_status = Some p /\
             (latitude p <= 0 \/ longitude p <= 0)) \/
  charge_status = None ->
  update_abrp X vehicle_status charge_status api h = (Return tt, api, []).
Proof.
  unfold update_abrp, position_fix. run.
  intros Hskip.
  destruct (abrp_api_key api) as [key |];
    [| destruct (abrp_user_token api); reflexivity].
  destruct (abrp_user_token api) as [tok |]; [| reflexivity].
  destruct vehicle_status as [vs |]; [| reflexivity].
  destruct (get_gps_position vs) as [gps |]; [| reflexivity].
  destruct (get_way_point gps) as [wp |]; [| reflexivity].
  destruct (get_position wp) as [p |]; [| reflexivity].
  destruct (Z.ltb_spec 0 (latitude p)) as [Hlat | Hlat]; [| reflexivity].
  destruct (Z.ltb_spec 0 (longitude p)) as [Hlon | Hlon]; [| reflexivity].
  destruct charge_status as [cs |]; [| reflexivity].
  exfalso.
  destruct Hskip as [H | [H | [H | [(q & Hq & Hle) | H]]]];
    try discriminate H.
  injection Hq as <-. lia.
Qed.

(** The telemetry dict is completed exactly when the status reports
    both a mileage and an electric range. *)
Lemma tlm_data_complete gps wp p vs cs :
  tlm_data gps wp p vs cs = None <->
  mileage (get_basic_vehicle_status vs) = None \/
  fuel_range_elec (get_basic_vehicle_status vs) = None.
Proof.
  unfold tlm_data. cbv zeta.
  destruct (mileage _) as [m |];
    [destruct (fuel_range_elec _) as [r |] |]; split;
    try discriminate; auto.
  intros [H | H]; discriminate H.
Qed.

Lemma update_abrp_type_error (X : Externals) vs gps wp p cs api key tok h :
  abrp_api_key api = Some key ->
  abrp_user_token api = Some tok ->
  get_gps_position vs = Some gps ->
  get_way_point gps = Some wp ->
  get_position wp = Some p ->
  0 < latitude p -> 0 < longitude p ->
  tlm_data gps wp p vs cs = None ->
  update_abrp X (Some vs) (Some cs) api h = (Raise TypeError, api, []).
Proof.
  unfold update_abrp. run.
  intros -> -> -> -> -> Hlat Hlon ->.
  destruct (Z.ltb_spec 0 (latitude p)); [| lia].
  destruct (Z.ltb_spec 0 (longitude p)); [| lia].
  reflexivity.
Qed.

Lemma update_abrp_uploads (X : Externals) vs gps wp p cs api key tok h data :
  abrp_api_key api = Some key ->
  abrp_user_token api = Some tok ->
  get_gps_position vs = Some gps ->
  get_way_point gps = Some wp ->
  get_position wp = Some p ->
  0 < latitude p -> 0 < longitude p ->
  tlm_data gps wp p vs cs = Some data ->
  let params :=
    [ ("api_key", key); ("token", tok); ("tlm", urlencode X data) ] in
  update_abrp X (Some vs) (Some cs) api h =
  match requests_get X h tlm_send_url params with
  | Some content =>
      (Return tt, api,
       [Get tlm_send_url params; Print ("ABRP: " ++ content)%string])
  | None => (Raise HTTPError, api, [Get tlm_send_url params])
  end.
Proof.
  unfold update_abrp. run.
  intros -> -> -> -> -> Hlat Hlon ->.
  destruct (Z.ltb_spec 0 (latitude p)); [| lia].
  destruct (Z.ltb_spec 0 (longitude p)); [| lia].
  cbn. tidy.
  destruct (requests_get X h _ _); reflexivity.
Qed.

(** C8, as amended.  The telemetry forwarder makes no call at all and
    returns whenever the vehicle-status response is absent, the GPS
    position, its way point or its position is absent, the latitude or
    the longitude is not strictly positive, or the charging-status
    response is absent.  It makes exactly one network call, the upload,
    when all of these are present and valid and, in addition, both the
    API key and the user token are set and the vehicle status reports a
    mileage and an electric range.  When all the rest holds but the
    mileage or the electric range is absent, its comparison with 0
    raises [TypeError] and no call is made. *)
Theorem update_abrp_gate (X : Externals) vehicle_status charge_status api h
        out api' new :
  update_abrp X vehicle_status charge_status api h = (out, api', new) ->
  (vehicle_status = None \/
   position_fix vehicle_status = None \/
   (exists p, position_fix vehicle_status = Some p /\
              (latitude p <= 0 \/ longitude p <= 0)) \/
   charge_status = None ->
   new = [] /\ network_calls new = 0%nat /\ out = Return tt) /\
  (forall vs p cs key tok odometer range_elec,
      vehicle_status = Some vs ->
      position_fix vehicle_status = Some p ->
      0 < latitude p -> 0 < longitude p ->
      charge_status = Some cs ->
      abrp_api_key api = Some key ->
      abrp_user_token api = Some tok ->
      mileage (get_basic_vehicle_status vs) = Some odometer ->
      fuel_range_elec (get_basic_vehicle_status vs) = Some range_elec ->
      network_calls new = 1%nat /\
      exists tlm,
        hd_error new =
          Some (Get tlm_send_url
                  [("api_key", key); ("token", tok); ("tlm", tlm)])) /\
  (forall vs p cs key tok,
      vehicle_status = Some vs ->
      position_fix vehicle_status = Some p ->
      0 < latitude p -> 0 < longitude p ->
      charge_status = Some cs ->
      abrp_api_key api = Some key ->
      abrp_user_token api = Some tok ->
      mileage (get_basic_vehicle_status vs) = None \/
      fuel_range_elec (get_basic_vehicle_status vs) = None ->
      new = [] /\ out = Raise TypeError).
Proof.
  intros Hrun. split; [| split].
  - intros Hskip.
    rewrite update_abrp_skips in Hrun.
    + inversion Hrun; subst. auto.
    + destruct Hskip as [-> | [H | [H | H]]]; auto.
  - intros vs p cs key tok odometer range_elec -> Hfix Hlat Hlon -> Hkey Htok
           Hm Hr.
    unfold position_fix in Hfix.
    destruct (get_gps_position vs) as [gps |] eqn:Hgps; [| discriminate].
    destruct (get_way_point gps) as [wp |] eqn:Hwp; [| discriminate].
    destruct (tlm_data gps wp p vs cs) as [data |] eqn:Hdata.
    + rewrite (update_abrp_uploads X vs gps wp p cs api key tok h data
                 Hkey Htok Hgps Hwp Hfix Hlat Hlon Hdata) in Hrun.
      destruct (requests_get X h _ _); inversion Hrun; subst;
        (split; [reflexivity | eexists; reflexivity]).
    + apply tlm_data_complete in Hdata.
      destruct Hdata; congruence.
  - intros vs p cs key tok -> Hfix Hlat Hlon -> Hkey Htok Habsent.
    unfold position_fix in Hfix.
    destruct (get_gps_position vs) as [gps |] eqn:Hgps; [| discriminate].
    destruct (get_way_point gps) as [wp |] eqn:Hwp; [| discriminate].
    apply (tlm_data_complete gps wp p vs cs) in Habsent.
    rewrite (update_abrp_type_error X vs gps wp p cs api key tok h
               Hkey Htok Hgps Hwp Hfix Hlat Hlon Habsent) in Hrun.
    inversion Hrun; subst. split; reflexivity.
Qed.

Lemma update_abrp_gate_witness :
  let api := {| abrp_api_key := Some "key"; abrp_user_token := Some "user" |} in
  network_calls
    (snd (update_abrp (Script.externals [] 0) (Some Script.status) None api []))
  = 0%nat /\
  network_calls
    (snd (update_abrp (Script.externals [] 0) (Some Script.status)
            (Some Script.charge) api []))
  = 1%nat /\
  fst (fst (update_abrp (Script.externals [] 0)
              (Some Script.status_without_range) (Some Script.charge) api []))
  = Raise TypeError.
Proof.
  cbv zeta. split; [| split].
  - apply (proj1 (update_abrp_gate _ _ _ _ _ _ _ _ (run_eta _))).
    right. right. right. reflexivity.
  - eapply (proj1 (proj2 (update_abrp_gate _ _ _ _ _ _ _ _ (run_eta _)))
              Script.status Script.position Script.charge "key" "user"
              123456 2500).
    + reflexivity.
    + vm_compute. reflexivity.
    + vm_compute. reflexivity.
    + vm_compute. reflexivity.
    + reflexivity.
    + reflexivity.
    + reflexivity.
    + reflexivity.
    + reflexivity.
  - eapply (proj2 (proj2 (update_abrp_gate _ _ _ _ _ _ _ _ (run_eta _)))
              Script.status_without_range Script.position Script.charge
              "key" "user").
    + reflexivity.
    + vm_compute. reflexivity.
    + vm_compute. reflexivity.
    + vm_compute. reflexivity.
    + reflexivity.
    + reflexivity.
    + reflexivity.
    + right. reflexivity.
Defined.

(** C8 as stated fails: with the vehicle status, a position fix with
    positive latitude and longitude and the charging status all there,
    a forwarder without API key makes no upload. *)
Lemma update_abrp_all_valid_no_upload :
  let api := {| abrp_api_key := None; abrp_user_token := Some "user" |} in
  exists p,
    position_fix (Some Script.status) = Some p /\
    0 < latitude p /\ 0 < longitude p /\
    update_abrp (Script.externals [] 0) (Some Script.status)
      (Some Script.charge) api [] = (Return tt, api, []) /\
    network_calls [] <> 1%nat.
Proof.
  cbv zeta. eexists.
  split; [vm_compute; reflexivity |].
  split; [vm_compute; reflexivity |].
  split; [vm_compute; reflexivity |].
  split; [vm_compute; reflexivity |].
  vm_compute. discriminate.
Qed.

(** C10.  When the API key or the user token is [None], [update_abrp]
    makes no call and returns, whatever the vehicle-status and
    charging-status responses hold. *)
Theorem update_abrp_needs_credentials (X : Externals) vehicle_status
        charge_status api h :
  abrp_api_key api = None \/ abrp_user_token api = None ->
  update_abrp X vehicle_status charge_status api h = (Return tt, api, []) /\
  network_calls (snd (update_abrp X vehicle_status charge_status api h)) = 0%nat.
Proof.
  intros Hcred.
  rewrite update_abrp_skips by (destruct Hcred; auto).
  split; reflexivity.
Qed.

Lemma update_abrp_needs_credentials_witness :
  let api := {| abrp_api_key := Some "key"; abrp_user_token := None |} in
  update_abrp (Script.externals [] 0) (Some Script.status)
    (Some Script.charge) api [] = (Return tt, api, []).
Proof.
  cbv zeta.
  apply (update_abrp_needs_credentials (Script.externals [] 0)).
  right. reflexivity.
Defined.

(** * Further properties *)

(** ** The telemetry payload *)

(** X1.  The completed telemetry dict has the key ["ext_temp"] exactly
    when the exterior temperature is not the sentinel -128, and then
    holds that temperature, 0 included. *)
Theorem tlm_data_ext_temp gps way_point position vehicle_status charge_status
        data :
  tlm_data gps way_point position vehicle_status charge_status = Some data ->
  let t := exterior_temperature (get_basic_vehicle_status vehicle_status) in
  dict_get "ext_temp" data = if t =? -128 then None else Some (Int t).
Proof.
  unfold tlm_data. cbv zeta.
  destruct (mileage _) as [m |]; [| discriminate].
  destruct (fuel_range_elec _) as [r |]; [| discriminate].
  intros H. injection H as <-.
  destruct (exterior_temperature _ =? -128);
    destruct (0 <? m); destruct (0 <? r);
    reflexivity.
Qed.

Lemma tlm_data_ext_temp_witness :
  exists data,
    tlm_data Script.gps Script.way_point Script.position Script.status
      Script.charge = Some data /\
    dict_get "ext_temp" data = Some (Int 12).
Proof.
  eexists. split; [vm_compute; reflexivity |].
  exact (tlm_data_ext_temp Script.gps Script.way_point Script.position
           Script.status Script.charge _ eq_refl).
Defined.

(** X2.  The telemetry dict is not completed, the comparison with 0
    raising [TypeError], exactly when the status reports no mileage or
    no electric range.  In a completed dict the odometer and the
    estimated battery range are present exactly when they are strictly
    positive, as tenths. *)
Theorem tlm_data_odometer_range gps way_point position vehicle_status
        charge_status :
  let basic := get_basic_vehicle_status vehicle_status in
  let made := tlm_data gps way_point position vehicle_status charge_status in
  (made = None <-> mileage basic = None \/ fuel_range_elec basic = None) /\
  (forall data, made = Some data ->
     exists m r,
       mileage basic = Some m /\ fuel_range_elec basic = Some r /\
       dict_get "odometer" data =
         (if 0 <? m then Some (Quot m 10) else None) /\
       dict_get "est_battery_range" data =
         (if 0 <? r then Some (Quot r 10) else None)).
Proof.
  cbv zeta. split; [apply tlm_data_complete |].
  unfold tlm_data. cbv zeta. intros data.
  destruct (mileage _) as [m |]; [| discriminate].
  destruct (fuel_range_elec _) as [r |]; [| discriminate].
  intros H. injection H as <-.
  exists m, r. split; [reflexivity |]. split; [reflexivity |].
  destruct (exterior_temperature _ =? -128);
    destruct (0 <? m); destruct (0 <? r);
    split; reflexivity.
Qed.

Lemma tlm_data_odometer_range_witness :
  exists data,
    tlm_data Script.gps Script.way_point Script.position Script.status
      Script.charge = Some data /\
    dict_get "odometer" data = Some (Quot 123456 10) /\
    tlm_data Script.gps Script.way_point Script.position
      Script.status_without_range Script.charge = None.
Proof.
  eexists. split; [vm_compute; reflexivity |]. split.
  - destruct (proj2 (tlm_data_odometer_range Script.gps Script.way_point
                       Script.position Script.status Script.charge)
                _ eq_refl)
      as (m & r & Hm & _ & Hodo & _).
    injection Hm as <-. exact Hodo.
  - apply (proj1 (tlm_data_odometer_range Script.gps Script.way_point
                    Script.position Script.status_without_range
                    Script.charge)).
    right. reflexivity.
Defined.

(** X3.  Whatever the status holds, the completed telemetry dict starts
    with the twelve fixed keys in their order, has between 12 and 15
    entries, and no key occurs twice in it. *)
Theorem tlm_data_keys gps way_point position vehicle_status charge_status
        data :
  tlm_data gps way_point position vehicle_status charge_status = Some data ->
  let keys := map fst data in
  firstn 12 keys = tlm_base_keys /\
  (12 <= List.length keys <= 15)%nat /\
  NoDup keys.
Proof.
  unfold tlm_data. cbv zeta.
  destruct (mileage _) as [m |]; [| discriminate].
  destruct (fuel_range_elec _) as [r |]; [| discriminate].
  intros H. injection H as <-.
  destruct (exterior_temperature _ =? -128);
    destruct (0 <? m); destruct (0 <? r);
    (split; [reflexivity |]); (split; [cbn; lia |]);
    cbn;
    repeat (constructor;
            [cbn; intros Hin;
             repeat (destruct Hin as [Hin | Hin]; [discriminate Hin |]);
             exact Hin |]);
    constructor.
Qed.

Lemma tlm_data_keys_witness :
  exists data,
    tlm_data Script.gps Script.way_point Script.position Script.status
      Script.charge = Some data /\
    List.length data = 15%nat /\
    NoDup (map fst data).
Proof.
  eexists. split; [vm_compute; reflexivity |].
  split; [reflexivity |].
  exact (proj2 (proj2 (tlm_data_keys Script.gps Script.way_point
                         Script.position Script.status Script.charge
                         _ eq_refl))).
Defined.

(** X4.  When the gate lets the forwarder through, one of three things
    happens.  If the status reports no mileage or no electric range,
    [TypeError] reaches the caller and no call was made.  Otherwise the
    forwarder makes the one GET with the API key, the user token and
    the encoded telemetry dict; if the GET or its status check fails,
    the exception reaches the caller and nothing is printed; if not,
    the answer is printed once and the call returns. *)
Theorem update_abrp_upload_outcome (X : Externals) vehicle_status
        charge_status api h out api' new vs gps wp p cs key tok :
  update_abrp X vehicle_status charge_status api h = (out, api', new) ->
  vehicle_status = Some vs ->
  get_gps_position vs = Some gps ->
  get_way_point gps = Some wp ->
  get_position wp = Some p ->
  0 < latitude p -> 0 < longitude p ->
  charge_status = Some cs ->
  abrp_api_key api = Some key ->
  abrp_user_token api = Some tok ->
  api' = api /\
  (((mileage (get_basic_vehicle_status vs) = None \/
     fuel_range_elec (get_basic_vehicle_status vs) = None) /\
    out = Raise TypeError /\ new = []) \/
   (exists data,
      tlm_data gps wp p vs cs = Some data /\
      let upload :=
        Get tlm_send_url
          [ ("api_key", key); ("token", tok); ("tlm", urlencode X data) ] in
      ((out = Raise HTTPError /\ new = [upload]) \/
       (out = Return tt /\
        exists content,
          new = [upload; Print ("ABRP: " ++ content)%string])))).
Proof.
  intros Hrun -> Hgps Hwp Hp Hlat Hlon -> Hkey Htok.
  destruct (tlm_data gps wp p vs cs) as [data |] eqn:Hdata.
  - rewrite (update_abrp_uploads X vs gps wp p cs api key tok h data
               Hkey Htok Hgps Hwp Hp Hlat Hlon Hdata) in Hrun.
    cbv zeta.
    destruct (requests_get X h _ _) as [content |];
      inversion Hrun; subst; (split; [reflexivity |]);
      right; exists data; (split; [reflexivity |]).
    + right. split; [reflexivity |]. exists content. reflexivity.
    + left. split; reflexivity.
  - rewrite (update_abrp_type_error X vs gps wp p cs api key tok h
               Hkey Htok Hgps Hwp Hp Hlat Hlon Hdata) in Hrun.
    inversion Hrun; subst. split; [reflexivity |].
    left. split; [| split; reflexivity].
    apply (tlm_data_complete gps wp p vs cs). exact Hdata.
Qed.

Lemma update_abrp_upload_outcome_witness :
  let api := {| abrp_api_key := Some "key"; abrp_user_token := Some "user" |} in
  let run :=
    update_abrp (Script.externals [] 0) (Some Script.status)
      (Some Script.charge) api [] in
  snd (fst run) = api /\
  List.length (filter is_print (snd run)) = 1%nat.
Proof.
  cbv zeta.
  destruct (update_abrp_upload_outcome (Script.externals [] 0)
              (Some Script.status) (Some Script.charge)
              {| abrp_api_key := Some "key"; abrp_user_token := Some "user" |}
              [] _ _ _ Script.status _ _ _ Script.charge "key" "user"
              (run_eta _) eq_refl eq_refl eq_refl eq_refl)
    as [Hapi _].
  - reflexivity.
  - reflexivity.
  - reflexivity.
  - reflexivity.
  - reflexivity.
  - split; [exact Hapi | vm_compute; reflexivity].
Defined.

(** ** Transport and session *)

Lemma send_request_run (X : Externals) hex url a h :
  send_request X hex url a h =
  match requests_post X h url hex (cookies a) with
  | Some (body, jar) =>
      (match bytes_decode X body with
       | Some content => Return content
       | None => Raise UnicodeDecodeError
       end, set_cookies jar a, [Post url hex (cookies a)])
  | None => (Raise HTTPError, a, [Post url hex (cookies a)])
  end.
Proof.
  unfold send_request. run. tidy.
  destruct (requests_post X h url hex (cookies a)) as [[body jar] |];
    [destruct (bytes_decode X body) |]; reflexivity.
Qed.

(** X5.  A request is posted with the cookies stored at that moment.
    A request whose POST or status check fails leaves the object as it
    was.  Once the POST is answered the stored cookies are those of the
    answer, so the next request carries them, and nothing else of the
    object changed; this holds as well when the body of the answer
    then fails to decode and [UnicodeDecodeError] reaches the caller
    in place of the text. *)
Theorem send_request_cookie_round_trip (X : Externals) hex1 url1 hex2 url2
        a h out1 a1 new1 :
  send_request X hex1 url1 a h = (out1, a1, new1) ->
  new1 = [Post url1 hex1 (cookies a)] /\
  ((requests_post X h url1 hex1 (cookies a) = None /\
    out1 = Raise HTTPError /\ a1 = a) \/
   exists body jar,
     requests_post X h url1 hex1 (cookies a) = Some (body, jar) /\
     out1 = match bytes_decode X body with
            | Some content => Return content
            | None => Raise UnicodeDecodeError
            end /\
     cookies a1 = Some jar /\
     uid a1 = uid a /\ token a1 = token a /\
     token_expiration a1 = token_expiration a /\
     snd (send_request X hex2 url2 a1 (h ++ new1)) =
       [Post url2 hex2 (Some jar)]).
Proof.
  rewrite send_request_run.
  destruct (requests_post X h url1 hex1 (cookies a)) as [[body jar] |] eqn:Hpost;
    intros Hrun; inversion Hrun; subst; (split; [reflexivity |]).
  - right. exists body, jar.
    repeat (split; [reflexivity |]).
    rewrite send_request_run.
    destruct (requests_post X _ url2 hex2 _) as [[c2 j2] |]; reflexivity.
  - left. repeat split; reflexivity.
Qed.

Lemma send_request_cookie_round_trip_witness :
  snd (send_request (Script.externals ["garbled"; "second"] 0) "b" "url"
         (snd (fst (send_request (Script.externals ["garbled"; "second"] 0)
                      "a" "url" Script.api [])))
         [Post "url" "a" None]) =
  [Post "url" "b" (Some [("JSESSIONID", "garbled")])] /\
  fst (fst (send_request (Script.externals ["garbled"; "second"] 0)
              "a" "url" Script.api [])) = Raise UnicodeDecodeError.
Proof.
  destruct (send_request_cookie_round_trip
              (Script.externals ["garbled"; "second"] 0) "a" "url" "b" "url"
              Script.api [] _ _ _ (run_eta _))
    as [Hnew [(Hpost & _)
             | (body & jar & Hpost & Hout & _ & _ & _ & _ & Hnext)]].
  - vm_compute in Hpost. discriminate Hpost.
  - vm_compute in Hpost. injection Hpost as <- <-.
    split; [exact Hnext | exact Hout].
Defined.

(** X6.  When the POST of a login fails, [login] raises the transport
    error, nothing was decoded or published as a response, and the
    object, cookies included, is what it was. *)
Theorem login_transport_fault_keeps_object (X : Externals) a h a' new :
  login X a h = (Raise HTTPError, a', new) ->
  a' = a /\
  network_calls new = 1%nat /\
  forall m, ~ In (Publish_json "501" 513 (LoginRspData m)) new.
Proof.
  destruct (login_answer X a h) as [content jar | | jar] eqn:Hans.
  - rewrite (login_answered X a h content jar Hans).
    destruct (V11.error_message _) as [msg |]; [| discriminate].
    destruct (bytes_decode X msg); discriminate.
  - rewrite (login_transport_fault X a h Hans).
    intros Hrun. inversion Hrun; subst.
    split; [reflexivity |]. split; [reflexivity |].
    intros m Hin. cbn in Hin.
    destruct Hin as [Hin | [Hin | [Hin | []]]]; discriminate Hin.
  - rewrite (login_garbled X a h jar Hans). discriminate.
Qed.

Lemma login_transport_fault_keeps_object_witness :
  snd (fst (login (Script.externals [] 0) Script.logged_in [])) =
  Script.logged_in.
Proof.
  refine (proj1 (login_transport_fault_keeps_object (Script.externals [] 0)
                   Script.logged_in [] _ _ _)).
  vm_compute. reflexivity.
Defined.

(** X7.  Whatever its outcome, [login] makes exactly one network call,
    a POST of the encoded request to the login path under the base URI
    with the stored cookies, and it never alters the base URI, the user
    name or the password. *)
Theorem login_one_post_keeps_credentials (X : Externals) a h :
  let '(out, a', new) := login X a h in
  network_calls new = 1%nat /\
  In (Post (urljoin X (saic_uri a) "/TAP.Web/ota.mp")
        (v11_encode_request X (login_request X a h)) (cookies a)) new /\
  V11.application_data (login_request X a h) =
    {| password := saic_password a |} /\
  saic_uri a' = saic_uri a /\
  saic_user a' = saic_user a /\
  saic_password a' = saic_password a.
Proof.
  destruct (login_answer X a h) as [content jar | | jar] eqn:Hans.
  - rewrite (login_answered X a h content jar Hans). cbv zeta.
    destruct (V11.error_message _) as [msg |].
    + repeat split. cbn. auto.
    + destruct (rsp_token_expiration _); repeat split; cbn; auto.
  - rewrite (login_transport_fault X a h Hans).
    repeat split. cbn. auto.
  - rewrite (login_garbled X a h jar Hans).
    repeat split. cbn. auto.
Qed.

(** ** Token refresh, continued *)

Lemma login_return_state (X : Externals) (a : SaicApi) (h : history)
      rsp a' new :
  login X a h = (Return rsp, a', new) ->
  (forall m, In (Publish_json "501" 513 (LoginRspData m)) new -> m = rsp) /\
  token_expiration a' =
    match rsp_token_expiration (V11.application_data rsp) with
    | Some te => Some te
    | None => token_expiration a
    end.
Proof.
  destruct (login_answer X a h) as [content jar | | jar] eqn:Hans.
  - rewrite (login_answered X a h content jar Hans).
    destruct (V11.error_message _) eqn:Herr; [discriminate |].
    intros H. inversion H; subst. clear H.
    split.
    + intros m Hin. cbn in Hin.
      destruct Hin as [Hin | [Hin | [Hin | [Hin | [Hin | []]]]]];
        try discriminate Hin.
      inversion Hin; subst. reflexivity.
    + destruct (rsp_token_expiration _); reflexivity.
  - rewrite (login_transport_fault X a h Hans). discriminate.
  - rewrite (login_garbled X a h jar Hans). discriminate.
Qed.

Lemma login_raise_state (X : Externals) (a : SaicApi) (h : history)
      e a' new :
  login X a h = (Raise e, a', new) ->
  uid a' = uid a /\ token a' = token a /\
  token_expiration a' = token_expiration a.
Proof.
  destruct (login_answer X a h) as [content jar | | jar] eqn:Hans.
  - rewrite (login_answered X a h content jar Hans).
    destruct (V11.error_message _) eqn:Herr; [| discriminate].
    intros H. inversion H; subst. cbn. auto.
  - rewrite (login_transport_fault X a h Hans).
    intros H. inversion H; subst. auto.
  - rewrite (login_garbled X a h jar Hans).
    intros H. inversion H; subst. auto.
Qed.

(** X8.  When the token has expired and the login that refreshes it
    gets a response without expiration, the expired expiration stays
    stored: every later [get_token] whose clock reading is past it
    logs in again. *)
Theorem get_token_stale_expiration (X : Externals) a h t a' new te :
  get_token X a h = (Return t, a', new) ->
  token_expiration a = Some te ->
  get_timestamp te < datetime_now X h ->
  (forall m, In (Publish_json "501" 513 (LoginRspData m)) new ->
             rsp_token_expiration (V11.application_data m) = None) ->
  token_expiration a' = Some te /\
  forall h', get_timestamp te < datetime_now X h' ->
             login_calls (snd (get_token X a' h')) = 1%nat.
Proof.
  intros Hrun Hte Hlt Hnone.
  rewrite (get_token_expired X a h te Hte Hlt) in Hrun.
  destruct (login X a (h ++ [Now])) as [[o a1] n1] eqn:Hlogin.
  destruct o as [rsp | e |]; inversion Hrun; subst; clear Hrun.
  pose proof (login_return_published X a _ rsp a' n1 Hlogin) as (Hin & _ & _).
  pose proof (login_return_state X a _ rsp a' n1 Hlogin) as (_ & Hexp).
  rewrite (Hnone rsp (or_intror Hin)), Hte in Hexp.
  split; [exact Hexp |].
  intros h' Hlt'.
  rewrite (get_token_expired X a' h' te Hexp Hlt').
  pose proof (login_calls_of_login X a' (h' ++ [Now])) as Hone.
  destruct (login X a' (h' ++ [Now])) as [[o2 a2] n2].
  destruct o2; exact Hone.
Qed.

Lemma get_token_stale_expiration_witness :
  let X := Script.externals ["session"; "session"] 600 in
  let a' := snd (fst (get_token X Script.logged_in [])) in
  token_expiration a' = Some {| get_timestamp := 500 |} /\
  login_calls (snd (get_token X a' [])) = 1%nat.
Proof.
  cbv zeta.
  set (r := get_token (Script.externals ["session"; "session"] 600)
              Script.logged_in []).
  destruct (get_token_stale_expiration
              (Script.externals ["session"; "session"] 600)
              Script.logged_in [] "session" (snd (fst r)) (snd r)
              {| get_timestamp := 500 |})
    as [Hexp Hagain].
  - vm_compute. reflexivity.
  - reflexivity.
  - vm_compute. reflexivity.
  - intros m Hin. vm_compute in Hin.
    destruct Hin as [Hin | [Hin | [Hin | [Hin | [Hin | [Hin | []]]]]]];
      try discriminate Hin.
    inversion Hin; subst. reflexivity.
  - split; [exact Hexp |].
    apply Hagain. vm_compute. reflexivity.
Defined.

(** X9.  When the token has expired and the login that refreshes it
    gets a response with a new expiration, that expiration is stored:
    a later [get_token] whose clock reading is not past it logs in no
    more, leaves the object alone and returns the same token. *)
Theorem get_token_refreshed_then_quiet (X : Externals) a h t a' new te m te' :
  get_token X a h = (Return t, a', new) ->
  token_expiration a = Some te ->
  get_timestamp te < datetime_now X h ->
  In (Publish_json "501" 513 (LoginRspData m)) new ->
  rsp_token_expiration (V11.application_data m) = Some te' ->
  t = rsp_token (V11.application_data m) /\
  forall h', datetime_now X h' <= get_timestamp te' ->
             get_token X a' h' = (Return t, a', [Now]).
Proof.
  intros Hrun Hte Hlt Hin Hnew.
  rewrite (get_token_expired X a h te Hte Hlt) in Hrun.
  destruct (login X a (h ++ [Now])) as [[o a1] n1] eqn:Hlogin.
  destruct o as [rsp | e |]; inversion Hrun; subst; clear Hrun.
  pose proof (login_return_published X a _ rsp a' n1 Hlogin) as (_ & _ & Htok).
  pose proof (login_return_state X a _ rsp a' n1 Hlogin) as (Huniq & Hexp).
  destruct Hin as [Hin | Hin]; [discriminate Hin |].
  apply Huniq in Hin. subst m.
  rewrite Hnew in Hexp.
  split; [exact Htok |].
  intros h' Hle.
  exact (get_token_still_valid X a' h' te' Hexp Hle).
Qed.

Lemma get_token_refreshed_then_quiet_witness :
  let X := Script.externals ["tok"] 600 in
  let a' := snd (fst (get_token X Script.logged_in [])) in
  get_token X a' [] = (Return "tok", a', [Now]).
Proof.
  cbv zeta.
  set (r := get_token (Script.externals ["tok"] 600) Script.logged_in []).
  refine (proj2 (get_token_refreshed_then_quiet
                   (Script.externals ["tok"] 600) Script.logged_in []
                   "tok" (snd (fst r)) (snd r) {| get_timestamp := 500 |}
                   (login_response (Script.externals ["tok"] 600) "tok")
                   {| get_timestamp := 1000 |} _ _ _ _ _) [] _).
  - vm_compute. reflexivity.
  - reflexivity.
  - vm_compute. reflexivity.
  - vm_compute. do 5 right. left. reflexivity.
  - vm_compute. reflexivity.
  - vm_compute. discriminate.
Defined.

(** X10.  [get_token] raises only out of the login it makes for an
    expired token; the stored uid, token and expiration then are what
    they were, so the expired token is still the stored one. *)
Theorem get_token_failed_refresh (X : Externals) a h e a' new :
  get_token X a h = (Raise e, a', new) ->
  (exists te, token_expiration a = Some te /\
              get_timestamp te < datetime_now X h) /\
  login_calls new = 1%nat /\
  uid a' = uid a /\ token a' = token a /\
  token_expiration a' = token_expiration a.
Proof.
  destruct (token_expiration a) as [te |] eqn:Hte.
  - destruct (Z.lt_ge_cases (get_timestamp te) (datetime_now X h)) as [Hlt | Hge].
    + rewrite (get_token_expired X a h te Hte Hlt).
      pose proof (login_calls_of_login X a (h ++ [Now])) as Hone.
      destruct (login X a (h ++ [Now])) as [[o a1] n1] eqn:Hlogin.
      destruct o as [rsp | e1 |]; intros Hrun; inversion Hrun; subst.
      apply login_raise_state in Hlogin.
      destruct Hlogin as (Hu & Ht & Hx).
      split; [eauto |]. split; [exact Hone |].
      rewrite Hx. auto.
    + rewrite (get_token_still_valid X a h te Hte Hge). discriminate.
  - rewrite (get_token_no_expiration X a h Hte). discriminate.
Qed.

Lemma get_token_failed_refresh_witness :
  token (snd (fst (get_token (Script.externals ["denied"] 600)
                     Script.logged_in []))) = "old-token".
Proof.
  set (r := get_token (Script.externals ["denied"] 600) Script.logged_in []).
  refine (proj1 (proj2 (proj2 (proj2
            (get_token_failed_refresh (Script.externals ["denied"] 600)
               Script.logged_in [] (SystemExit "err") (snd (fst r)) (snd r)
               _))))).
  vm_compute. reflexivity.
Defined.

(** ** The dispatcher and the coordinator, continued *)

Lemma get_token_returns_stored (X : Externals) a h tok a' new :
  get_token X a h = (Return tok, a', new) -> tok = token a'.
Proof.
  destruct (token_expiration a) as [te |] eqn:Hte.
  - destruct (Z.lt_ge_cases (get_timestamp te) (datetime_now X h)) as [Hlt | Hge].
    + rewrite (get_token_expired X a h te Hte Hlt).
      destruct (login X a (h ++ [Now])) as [[o a1] n1].
      destruct o; intros H; inversion H; subst. reflexivity.
    + rewrite (get_token_still_valid X a h te Hte Hge).
      intros H; inversion H; subst. reflexivity.
  - rewrite (get_token_no_expiration X a h Hte).
    intros H; inversion H; subst. reflexivity.
Qed.

(** X11.  A control request is stamped with the uid stored when the
    call began and with the token stored when it ends: if the token is
    refreshed on the way and the login brings another uid, the request
    still carries the earlier uid, next to the new token. *)
Theorem control_request_uid_and_token (X : Externals) vin_info rvc_req_type
        rvc_params event_id a h out a' new m :
  send_vehicle_control_command X vin_info rvc_req_type rvc_params event_id a h
  = (out, a', new) ->
  In (Publish_json "510" 25857 (CtrlReqData m)) new ->
  V2.application_data m =
    Some {| rvc_req_type := rvc_req_type; rvc_params := rvc_params |} /\
  exists h',
    V2.body m =
      with_event_id event_id
        (v2_initialize_message X h' (uid a) (token a') (vin vin_info)
           "510" 25857 1 (new_MessageBodyV2 X)).
Proof.
  unfold send_vehicle_control_command, send_request. run. tidy.
  pose proof (get_token_no_ctrl_request X a h) as Hq.
  destruct (get_token X a h) as [[o a1] n1] eqn:Htok.
  cbn [fst snd] in Hq.
  assert (Hnot : ~ In (Publish_json "510" 25857 (CtrlReqData m)) n1).
  { intros Hin. rewrite Forall_forall in Hq. apply Hq in Hin. discriminate Hin. }
  destruct o as [tok | e |].
  - apply get_token_returns_stored in Htok. subst tok. tidy.
    destruct (requests_post X _ _ _ _) as [[body jar] |];
      [destruct (bytes_decode X body) as [content |] |]; cbn [fst snd];
      intros Hrun Hin; inversion Hrun; subst; clear Hrun;
      (apply in_app_or in Hin; destruct Hin as [Hin | Hin]; [contradiction |]);
      cbn in Hin;
      repeat (destruct Hin as [Hin | Hin]; [try discriminate Hin |]);
      try contradiction;
      inversion Hin; subst;
      (split; [destruct event_id; reflexivity |]);
      exists (h ++ n1); destruct event_id; reflexivity.
  - intros Hrun Hin. inversion Hrun; subst. contradiction.
  - intros Hrun Hin. inversion Hrun; subst. contradiction.
Qed.

Lemma control_request_uid_and_token_witness :
  let X := Script.externals ["tok"; "done"] 600 in
  let a := set_uid "uid-1" Script.logged_in in
  let run := send_vehicle_control_command X Script.car [Byte.x01] [] None a [] in
  uid (snd (fst run)) = "uid-7" /\ uid a = "uid-1" /\
  exists m h',
    In (Publish_json "510" 25857 (CtrlReqData m)) (snd run) /\
    V2.body m =
      v2_initialize_message X h' "uid-1" "tok" "VIN0001" "510" 25857 1
        (new_MessageBodyV2 X).
Proof.
  cbv zeta.
  split; [vm_compute; reflexivity |].
  split; [reflexivity |].
  set (X := Script.externals ["tok"; "done"] 600).
  set (a := set_uid "uid-1" Script.logged_in).
  set (run := send_vehicle_control_command X Script.car [Byte.x01] [] None a []).
  set (m := {| V2.body := {| V2.event_id := Some "0"; V2.error_message := None |};
               V2.application_data :=
                 Some {| rvc_req_type := [Byte.x01]; rvc_params := [] |} |}).
  assert (Hin : In (Publish_json "510" 25857 (CtrlReqData m)) (snd run)).
  { vm_compute. do 6 right. left. reflexivity. }
  destruct (control_request_uid_and_token X Script.car [Byte.x01] [] None a []
              (fst (fst run)) (snd (fst run)) (snd run) m (run_eta _) Hin)
    as [_ [h' Hbody]].
  exists m, h'. split; [exact Hin |].
  exact Hbody.
Defined.

Section ChainEnds.
Context (X : Externals) (vin_info : VinInfo) (marker : bytes)
        (params : list RvcReqParam).

Local Abbreviation chain' := (chain X vin_info marker params).

Lemma final_cons x y (o : list obs) : final (x :: y :: o) = final (y :: o).
Proof. reflexivity. Qed.

(** Where a chain ends: on a response when the coordinator comes to
    its end, and then on a good one or on the last one allowed; on
    anything else when it is cut short. *)
Lemma chain_final k eid o ret :
  chain' k eid o ret -> k <= 3 ->
  if ret
  then exists r, final o = Some (Response r) /\
                 (has_error r = false \/ Z.of_nat (attempts o) = 4 - k)
  else forall r, final o <> Some (Response r).
Proof.
  induction 1 as [k eid | k eid m Hm | k eid m r Hm Hr
                  | k eid m r rest ret Hm Hr Hk Hrest IH];
    intros Hle.
  - discriminate.
  - discriminate.
  - exists r. split; [reflexivity |].
    destruct Hr as [Hr | Hr]; [left; exact Hr | right].
    change (attempts [Attempt m; Response r]) with 1%nat. lia.
  - specialize (IH ltac:(lia)).
    rewrite !final_cons.
    change (attempts (Attempt m :: Response r :: Delay 2 :: rest))
      with (S (attempts rest)).
    destruct ret.
    + destruct IH as (r' & Hfin & Hdone).
      destruct rest as [| x rest]; [discriminate Hfin |].
      rewrite final_cons.
      exists r'. split; [exact Hfin |].
      destruct Hdone as [Hdone | Hdone]; [left; exact Hdone | right; lia].
    + destruct rest as [| x rest]; [discriminate |].
      rewrite final_cons. exact IH.
Qed.

Lemma chain_delays k eid o ret :
  chain' k eid o ret ->
  Forall (fun s => s = 2) (delays o) /\
  Z.of_nat (List.length (delays o)) <= Z.max 0 (3 - k) /\
  (List.length (delays o) <= attempts o)%nat /\
  (ret = true -> attempts o = S (List.length (delays o))).
Proof.
  induction 1 as [k eid | k eid m Hm | k eid m r Hm Hr
                  | k eid m r rest ret Hm Hr Hk Hrest IH].
  - cbn. repeat split; try constructor; try lia; try discriminate.
  - cbn. repeat split; try constructor; try lia; try discriminate.
  - cbn. repeat split; try constructor; try lia.
  - destruct IH as (Hall & Hlen & Hle & Hret).
    change (delays (Attempt m :: Response r :: Delay 2 :: rest))
      with (2 :: delays rest).
    change (attempts (Attempt m :: Response r :: Delay 2 :: rest))
      with (S (attempts rest)).
    cbn [List.length].
    repeat split.
    + constructor; [reflexivity | exact Hall].
    + lia.
    + lia.
    + intros H. rewrite (Hret H). reflexivity.
Qed.
End ChainEnds.

Lemma time_slept_twos (l : list Z) :
  Forall (fun s => s = 2) l ->
  fold_right Z.add 0 l = 2 * Z.of_nat (List.length l).
Proof.
  induction 1 as [| s l Hs Hl IH]; [reflexivity |].
  cbn [fold_right List.length]. rewrite IH, Hs. lia.
Qed.

(** X12.  The coordinator returns exactly when the last thing it shows
    is a decoded response, and that response then carries no error
    payload or is the answer to the 3rd attempt; when it raises, the
    last thing it shows is never a response. *)
Theorem coordinator_stops_when_done (X : Externals) vin_info rvc_req_type
        rvc_params a h out a' new :
  send_vehicle_ctrl_cmd_with_retry X vin_info rvc_req_type rvc_params a h
  = (out, a', new) ->
  (out = Return PyNone <-> exists r, final (observe new) = Some (Response r)) /\
  (forall r, final (observe new) = Some (Response r) ->
             V2.error_message (V2.body r) = None \/
             attempts (observe new) = 3%nat).
Proof.
  intros Hrun.
  apply send_vehicle_ctrl_cmd_with_retry_chain in Hrun.
  destruct Hrun as [Hout Hchain].
  apply chain_final in Hchain; [| lia].
  destruct Hout as [-> | [e ->]]; cbn [returned] in Hchain.
  - destruct Hchain as (r & Hfin & Hdone).
    split.
    + split; [intros _; eauto | reflexivity].
    + intros r' Hfin'. rewrite Hfin in Hfin'. injection Hfin' as <-.
      destruct Hdone as [Hdone | Hdone]; [left | right; lia].
      unfold has_error in Hdone.
      destruct (V2.error_message (V2.body r)); [discriminate | reflexivity].
  - split.
    + split; [discriminate |].
      intros [r Hfin]. exfalso. exact (Hchain r Hfin).
    + intros r Hfin. exfalso. exact (Hchain r Hfin).
Qed.

Lemma coordinator_stops_when_done_witness :
  let run :=
    send_vehicle_ctrl_cmd_with_retry
      (Script.externals ["e1"; "e2"; "e3"] 0) Script.car [Byte.x01] []
      Script.logged_in [] in
  fst (fst run) = Return PyNone /\ attempts (observe (snd run)) = 3%nat.
Proof.
  cbv zeta.
  set (run := send_vehicle_ctrl_cmd_with_retry _ _ _ _ _ _).
  destruct (coordinator_stops_when_done _ _ _ _ _ _ _ _ _ (run_eta run))
    as [Hiff Hdone].
  split.
  - apply Hiff. vm_compute. eexists. reflexivity.
  - edestruct Hdone as [Herr | Hthree].
    + vm_compute. reflexivity.
    + vm_compute in Herr. discriminate Herr.
    + exact Hthree.
Defined.

(** X13.  One coordinator call sleeps at most twice, 2 seconds each
    time, 4 seconds in all; it never sleeps more often than it issues
    requests, and when it returns it slept exactly once between two
    requests. *)
Theorem coordinator_sleeps_at_most_4s (X : Externals) vin_info rvc_req_type
        rvc_params a h :
  let '(out, a', new) :=
    send_vehicle_ctrl_cmd_with_retry X vin_info rvc_req_type rvc_params a h in
  Forall (fun s => s = 2) (delays (observe new)) /\
  0 <= time_slept (observe new) <= 4 /\
  (List.length (delays (observe new)) <= attempts (observe new))%nat /\
  (out = Return PyNone ->
   attempts (observe new) = S (List.length (delays (observe new)))).
Proof.
  destruct (send_vehicle_ctrl_cmd_with_retry X vin_info rvc_req_type
              rvc_params a h) as [[out a'] new] eqn:Hrun.
  apply send_vehicle_ctrl_cmd_with_retry_chain in Hrun.
  destruct Hrun as [_ Hchain].
  apply chain_delays in Hchain.
  destruct Hchain as (Hall & Hlen & Hle & Hret).
  split; [exact Hall |].
  split; [unfold time_slept; rewrite (time_slept_twos _ Hall); lia |].
  split; [exact Hle |].
  intros ->. apply Hret. reflexivity.
Qed.

(** X15.  Every request of one coordinator call, the retries included,
    carries the marker and the parameter list the call was given. *)
Theorem coordinator_resends_same_command (X : Externals) vin_info
        rvc_req_type rvc_params a h :
  forall m,
    In (Attempt m)
       (observe (snd (send_vehicle_ctrl_cmd_with_retry X vin_info rvc_req_type
                        rvc_params a h))) ->
    V2.application_data m =
      Some {| rvc_req_type := rvc_req_type; rvc_params := rvc_params |}.
Proof.
  intros m Hin.
  destruct (send_vehicle_ctrl_cmd_with_retry_chain X vin_info rvc_req_type
              rvc_params a h _ _ _ (run_eta _)) as [_ Hchain].
  exact (chain_every_attempt _ _ _ _ _ _ _ _ m Hchain Hin).
Qed.

Lemma coordinator_resends_same_command_witness :
  let run :=
    send_vehicle_ctrl_cmd_with_retry
      (Script.externals ["e1"; "done"] 0) Script.car [Byte.x20]
      [{| param_id := 23; param_value := [Byte.x01] |}] Script.logged_in [] in
  attempts (observe (snd run)) = 2%nat /\
  exists m, In (Attempt m) (observe (snd run)) /\
            V2.application_data m =
              Some {| rvc_req_type := [Byte.x20];
                      rvc_params :=
                        [{| param_id := 23; param_value := [Byte.x01] |}] |}.
Proof.
  cbv zeta. split; [vm_compute; reflexivity |].
  eexists. split.
  - vm_compute. do 3 right. left. reflexivity.
  - apply (coordinator_resends_same_command
             (Script.externals ["e1"; "done"] 0) Script.car [Byte.x20]
             [{| param_id := 23; param_value := [Byte.x01] |}]
             Script.logged_in []).
    vm_compute. do 3 right. left. reflexivity.
Defined.

(** X16.  Switching the rear window heater on and off both issue
    requests with the marker [b'\x20'] and two parameters, 23 and 255;
    parameter 23 is 1 for on and 0 for off, parameter 255 is 0. *)
Theorem rear_window_heat_requests (X : Externals) vin_info a h :
  (forall m,
      In (Attempt m) (observe (snd (start_rear_window_heat X vin_info a h))) ->
      V2.application_data m =
        Some {| rvc_req_type := [Byte.x20];
                rvc_params :=
                  [ {| param_id := 23; param_value := [Byte.x01] |};
                    {| param_id := 255; param_value := [Byte.x00] |} ] |}) /\
  (forall m,
      In (Attempt m) (observe (snd (stop_rear_window_heat X vin_info a h))) ->
      V2.application_data m =
        Some {| rvc_req_type := [Byte.x20];
                rvc_params :=
                  [ {| param_id := 23; param_value := [Byte.x00] |};
                    {| param_id := 255; param_value := [Byte.x00] |} ] |}).
Proof.
  split; intros m.
  - change (start_rear_window_heat X vin_info a h)
      with (actuate X HeatOn vin_info a h).
    rewrite actuate_run. intros Hin.
    destruct (send_vehicle_ctrl_cmd_with_retry_chain X vin_info
                (fst (command_of HeatOn)) (snd (command_of HeatOn)) a h
                _ _ _ (run_eta _)) as [_ Hchain].
    exact (chain_every_attempt _ _ _ _ _ _ _ _ m Hchain Hin).
  - change (stop_rear_window_heat X vin_info a h)
      with (actuate X HeatOff vin_info a h).
    rewrite actuate_run. intros Hin.
    destruct (send_vehicle_ctrl_cmd_with_retry_chain X vin_info
                (fst (command_of HeatOff)) (snd (command_of HeatOff)) a h
                _ _ _ (run_eta _)) as [_ Hchain].
    exact (chain_every_attempt _ _ _ _ _ _ _ _ m Hchain Hin).
Qed.

Lemma rear_window_heat_requests_witness :
  exists m,
    hd_error (observe (snd (stop_rear_window_heat
                              (Script.externals ["done"] 0) Script.car
                              Script.logged_in []))) = Some (Attempt m) /\
    V2.application_data m =
      Some {| rvc_req_type := [Byte.x20];
              rvc_params :=
                [ {| param_id := 23; param_value := [Byte.x00] |};
                  {| param_id := 255; param_value := [Byte.x00] |} ] |}.
Proof.
  eexists. split; [vm_compute; reflexivity |].
  apply (proj2 (rear_window_heat_requests (Script.externals ["done"] 0)
                  Script.car Script.logged_in [])).
  vm_compute. left. reflexivity.
Defined.

Lemma coordinator_sleeps_at_most_4s_witness :
  let run :=
    send_vehicle_ctrl_cmd_with_retry
      (Script.externals ["e1"; "e2"; "e3"] 0) Script.car [Byte.x01] []
      Script.logged_in [] in
  time_slept (observe (snd run)) = 4 /\
  attempts (observe (snd run)) = S (List.length (delays (observe (snd run)))).
Proof.
  cbv zeta. split; [vm_compute; reflexivity |].
  pose proof (coordinator_sleeps_at_most_4s
                (Script.externals ["e1"; "e2"; "e3"] 0) Script.car
                [Byte.x01] [] Script.logged_in []) as H.
  destruct (send_vehicle_ctrl_cmd_with_retry _ _ _ _ _ _) as [[out a'] new] eqn:Hrun.
  destruct H as (_ & _ & _ & Hret).
  apply Hret.
  apply (f_equal (fun r => fst (fst r))) in Hrun.
  vm_compute in Hrun. symmetry. exact Hrun.
Defined.

(** *** Network calls *)

Lemma network_calls_app h1 h2 :
  network_calls (h1 ++ h2) = (network_calls h1 + network_calls h2)%nat.
Proof. unfold network_calls. rewrite filter_app, length_app. reflexivity. Qed.

Lemma login_calls_app h1 h2 :
  login_calls (h1 ++ h2) = (login_calls h1 + login_calls h2)%nat.
Proof. unfold login_calls. rewrite filter_app, length_app. reflexivity. Qed.

Lemma login_network_calls (X : Externals) a h :
  network_calls (snd (login X a h)) = 1%nat.
Proof.
  destruct (login_answer X a h) as [content jar | | jar] eqn:Hans.
  - rewrite (login_answered X a h content jar Hans).
    destruct (V11.error_message _); reflexivity.
  - rewrite (login_transport_fault X a h Hans). reflexivity.
  - rewrite (login_garbled X a h jar Hans). reflexivity.
Qed.

Lemma attempts_app o1 o2 :
  attempts (o1 ++ o2) = (attempts o1 + attempts o2)%nat.
Proof. unfold attempts. rewrite filter_app, length_app. reflexivity. Qed.

Lemma balanced_app h1 h2 : balanced h1 -> balanced h2 -> balanced (h1 ++ h2).
Proof.
  unfold balanced. intros H1 H2.
  rewrite network_calls_app, login_calls_app, observe_app, attempts_app. lia.
Qed.

Lemma balanced_quiet e h :
  is_network_call e = false -> is_login_request e = false ->
  attempts (observe_event e) = 0%nat ->
  balanced h -> balanced (e :: h).
Proof.
  unfold balanced. intros Hn Hl Ha Hh.
  change (e :: h) with ([e] ++ h).
  rewrite network_calls_app, login_calls_app, observe_app, attempts_app.
  unfold network_calls, login_calls at 1, observe. cbn [filter flat_map].
  rewrite Hn, Hl, app_nil_r, Ha. cbn. exact Hh.
Qed.

Lemma login_balanced (X : Externals) a h : balanced (snd (login X a h)).
Proof.
  destruct (login_answer X a h) as [content jar | | jar] eqn:Hans.
  - rewrite (login_answered X a h content jar Hans).
    destruct (V11.error_message _); reflexivity.
  - rewrite (login_transport_fault X a h Hans). reflexivity.
  - rewrite (login_garbled X a h jar Hans). reflexivity.
Qed.

Lemma get_token_calls (X : Externals) a h :
  balanced (snd (get_token X a h)) /\
  (login_calls (snd (get_token X a h)) <= 1)%nat.
Proof.
  destruct (token_expiration a) as [te |] eqn:Hte.
  - destruct (Z.lt_ge_cases (get_timestamp te) (datetime_now X h)) as [Hlt | Hge].
    + rewrite (get_token_expired X a h te Hte Hlt).
      pose proof (login_balanced X a (h ++ [Now])) as Hbal.
      pose proof (login_calls_of_login X a (h ++ [Now])) as Hlog.
      destruct (login X a (h ++ [Now])) as [[o a1] n1].
      cbn [snd] in Hbal, Hlog.
      destruct o; cbn [snd];
        (split; [apply balanced_quiet; auto |]);
        change (login_calls (Now :: n1)) with (login_calls n1); lia.
    + rewrite (get_token_still_valid X a h te Hte Hge).
      split; [reflexivity | cbn; lia].
  - rewrite (get_token_no_expiration X a h Hte).
    split; [reflexivity | cbn; lia].
Qed.

Lemma send_vehicle_control_command_calls (X : Externals) vin_info
      rvc_req_type rvc_params event_id a h :
  let new := snd (send_vehicle_control_command X vin_info rvc_req_type
                    rvc_params event_id a h) in
  balanced new /\ (login_calls new <= 1)%nat.
Proof.
  unfold send_vehicle_control_command, send_request. run. tidy.
  destruct (get_token_calls X a h) as [Hbal Hlog].
  destruct (get_token X a h) as [[o a1] n1].
  cbn [fst snd] in Hbal, Hlog.
  destruct o as [tok | e |]; cbn [snd]; try (split; assumption).
  tidy.
  destruct (requests_post X _ _ _ _) as [[body jar] |];
      [destruct (bytes_decode X body) as [content |] |]; cbn [fst snd];
    (split; [apply balanced_app; [exact Hbal | reflexivity] |]);
    rewrite login_calls_app;
    match goal with
    | |- context [login_calls (?e :: ?l)] =>
        change (login_calls (e :: l)) with 0%nat
    end; lia.
Qed.

Lemma retry_loop_calls (X : Externals) vin_info rvc_req_type rvc_params :
  forall fuel rsp k a h,
    let new := snd (retry_loop X fuel vin_info rvc_req_type rvc_params
                      rsp k a h) in
    balanced new /\ Z.of_nat (login_calls new) <= Z.max 0 (3 - k).
Proof.
  induction fuel as [| fuel IH]; intros rsp k a h; cbn [retry_loop].
  - destruct (V2.error_message (V2.body rsp));
      [| split; [reflexivity | cbn; lia]].
    destruct (k <? 3); (split; [reflexivity | cbn; lia]).
  - destruct (V2.error_message (V2.body rsp));
      [| split; [reflexivity | cbn; lia]].
    destruct (Z.ltb_spec k 3) as [Hlt | Hge];
      [| split; [reflexivity | cbn; lia]].
    run. tidy.
    pose proof (send_vehicle_control_command_calls X vin_info rvc_req_type
                  rvc_params (V2.event_id (V2.body rsp)) a (h ++ [Sleep 2]))
      as Hsend.
    cbv zeta in Hsend.
    destruct (send_vehicle_control_command X vin_info rvc_req_type rvc_params
                (V2.event_id (V2.body rsp)) a (h ++ [Sleep 2]))
      as [[o a1] n1].
    cbn [fst snd] in Hsend. destruct Hsend as [Hbal Hlog].
    destruct o as [r | e |]; cbn [snd];
      try (split; [apply balanced_quiet; auto |];
           change (login_calls (Sleep 2 :: n1)) with (login_calls n1); lia).
    tidy.
    specialize (IH r (k + 1) a1 (h ++ Sleep 2 :: n1)).
    cbv zeta in IH.
    destruct (retry_loop X fuel vin_info rvc_req_type rvc_params r (k + 1) a1
                (h ++ Sleep 2 :: n1)) as [[o2 a2] n2].
    cbn [fst snd] in *. destruct IH as [Hbal2 Hlog2].
    split.
    + apply balanced_quiet; auto. apply balanced_app; assumption.
    + change (login_calls (Sleep 2 :: n1 ++ n2)) with (login_calls (n1 ++ n2)).
      rewrite login_calls_app. lia.
Qed.

(** X14.  The network calls of one coordinator call are its control
    requests and the logins that refresh the token, at most one login
    per request: at most 3 logins and at most 6 network calls in all. *)
Theorem coordinator_network_calls (X : Externals) vin_info rvc_req_type
        rvc_params a h :
  let new := snd (send_vehicle_ctrl_cmd_with_retry X vin_info rvc_req_type
                    rvc_params a h) in
  network_calls new = (attempts (observe new) + login_calls new)%nat /\
  (login_calls new <= 3)%nat /\
  (network_calls new <= 6)%nat.
Proof.
  cbv zeta.
  assert (Hatt : (attempts (observe (snd (send_vehicle_ctrl_cmd_with_retry X
                     vin_info rvc_req_type rvc_params a h))) <= 3)%nat).
  { destruct (send_vehicle_ctrl_cmd_with_retry_chain X vin_info rvc_req_type
                rvc_params a h _ _ _ (run_eta _)) as [_ Hchain].
    pose proof (chain_attempts _ _ _ _ _ _ _ _ Hchain). lia. }
  revert Hatt.
  unfold send_vehicle_ctrl_cmd_with_retry. run. tidy.
  pose proof (send_vehicle_control_command_calls X vin_info rvc_req_type
                rvc_params None a h) as Hsend.
  cbv zeta in Hsend.
  destruct (send_vehicle_control_command X vin_info rvc_req_type rvc_params
              None a h) as [[o a1] n1].
  cbn [fst snd] in Hsend. destruct Hsend as [Hbal Hlog].
  destruct o as [r | e |]; cbn [snd];
    try (intros Hatt; unfold balanced in Hbal; lia).
  pose proof (retry_loop_calls X vin_info rvc_req_type rvc_params retry_fuel
                r 1 a1 (h ++ n1)) as Hloop.
  cbv zeta in Hloop.
  destruct (retry_loop X retry_fuel vin_info rvc_req_type rvc_params r 1 a1
              (h ++ n1)) as [[o2 a2] n2].
  cbn [fst snd] in Hloop. destruct Hloop as [Hbal2 Hlog2].
  assert (Hb : balanced (n1 ++ n2)) by (apply balanced_app; assumption).
  assert (Hl : (login_calls (n1 ++ n2) <= 3)%nat)
    by (rewrite login_calls_app; lia).
  destruct o2; tidy; cbn [fst snd]; intros Hatt;
    unfold balanced in Hb; lia.
Qed.

(** ** The queries and the alarm switches *)

Section QueryRuns.
Context {MessageListResp : Type} (X : Externals) (C : @Coders MessageListResp).

Local Abbreviation qhist := (@qhistory MessageListResp).

Lemma base_of_app (h1 h2 : qhist) :
  base_of (h1 ++ h2) = base_of h1 ++ base_of h2.
Proof. unfold base_of. apply flat_map_app. Qed.

Lemma base_of_map_Base (n : history) :
  base_of (map (@Base MessageListResp) n) = n.
Proof. induction n as [| e n IH]; [reflexivity |]. cbn. f_equal. exact IH. Qed.

Lemma not_in_map_Base app v (d : @query_data MessageListResp) (n : history) :
  ~ In (Publish_query app v d) (map Base n).
Proof.
  induction n as [| e n IH]; cbn; [tauto |].
  intros [H | H]; [discriminate H | exact (IH H)].
Qed.

Lemma get_token_network_calls a h :
  (network_calls (snd (get_token X a h)) <= 1)%nat.
Proof.
  destruct (get_token_calls X a h) as [Hbal Hlog].
  destruct (get_token_quiet X a h) as [Hobs _].
  unfold balanced in Hbal. rewrite Hobs in Hbal.
  change (attempts []) with 0%nat in Hbal. lia.
Qed.
End QueryRuns.

(** Unfold a query down to the token refresh and the POST. *)
Ltac qrun :=
  unfold publish_query_value, q_bind, q_ret, q_raise, q_call, q_get_self,
    q_get_past, q_lift, send_request, publish_raw_value in *;
  run; tidy.

(** Find a published message among the calls of a query: not among
    those of the token refresh, so among the listed ones. *)
Ltac in_made H :=
  apply in_app_or in H;
  destruct H as [H | H]; [destruct (not_in_map_Base _ _ _ _ H) |];
  cbn in H;
  repeat (destruct H as [H | H]; [try discriminate H |]);
  try contradiction.

(** Count the network calls of a query: those of the token refresh,
    and the POST among the listed ones. *)
Ltac count_calls :=
  rewrite base_of_app, base_of_map_Base, network_calls_app;
  match goal with
  | |- (_ + ?c <= _)%nat => let v := eval cbv in c in change c with v
  end;
  lia.

(** X17.  [get_vehicle_status] hands back whatever response was
    decoded, with or without an error payload: it raises nothing on
    account of the response and sends the request once.  The request
    asks for status type 2 and is stamped with the uid stored when the
    call began and the token stored when it ends; an event id is put
    into its body only when one was given.  Two network calls at most
    are made, the POST and the login of a token refresh. *)
Theorem get_vehicle_status_returns_response {MessageListResp : Type}
        (X : Externals) (C : @Coders MessageListResp) vin_info event_id
        a h out a' new :
  get_vehicle_status X C vin_info event_id a h = (out, a', new) ->
  (forall r, In (Publish_query "511" 25857 (StatusRspData r)) new <->
             out = QReturn r) /\
  ((exists r, out = QReturn r) \/ exists e, out = QRaise (Escaped e)) /\
  (forall m, In (Publish_query "511" 25857 (StatusReqData m)) new ->
     V2.application_data m = Some {| veh_status_req_type := 2 |} /\
     exists h',
       V2.body m =
         with_event_id event_id
           (v2_initialize_message X h' (uid a) (token a') (vin vin_info)
              "511" 25857 1 (new_MessageBodyV2 X))) /\
  (network_calls (base_of new) <= 2)%nat.
Proof.
  unfold get_vehicle_status. qrun.
  pose proof (get_token_network_calls X a (base_of h)) as Hnet.
  pose proof (get_token_quiet X a (base_of h)) as [_ Hfuel].
  destruct (get_token X a (base_of h)) as [[o a1] n1] eqn:Htok.
  cbn [fst snd] in Hnet, Hfuel.
  destruct o as [tok | e |]; [| | congruence].
  - apply get_token_returns_stored in Htok. subst tok. tidy.
    destruct (requests_post X _ _ _ _) as [[body jar] |];
      [destruct (bytes_decode X body) as [content |] |]; cbn [fst snd];
      intros Hrun; inversion Hrun; subst; clear Hrun;
      (split; [intros r; split; [intros Hin; in_made Hin | intros Hout] |]);
      try discriminate Hout.
    + inversion Hin; subst. reflexivity.
    + inversion Hout; subst.
      apply in_or_app. right. cbn. do 4 right. left. reflexivity.
    + split; [left; eauto |].
      split; [| count_calls].
      intros m Hin. in_made Hin. inversion Hin; subst.
      split; [destruct event_id; reflexivity |].
      eexists. destruct event_id; reflexivity.
    + split; [right; eauto |].
      split; [| count_calls].
      intros m Hin. in_made Hin. inversion Hin; subst.
      split; [destruct event_id; reflexivity |].
      eexists. destruct event_id; reflexivity.
    + split; [right; eauto |].
      split; [| count_calls].
      intros m Hin. in_made Hin. inversion Hin; subst.
      split; [destruct event_id; reflexivity |].
      eexists. destruct event_id; reflexivity.
  - intros Hrun; inversion Hrun; subst; clear Hrun.
    split; [intros r; split;
            [intros Hin; destruct (not_in_map_Base _ _ _ _ Hin)
            | discriminate] |].
    split; [right; eauto |].
    split; [intros m Hin; destruct (not_in_map_Base _ _ _ _ Hin) |].
    rewrite base_of_map_Base. lia.
Qed.

Lemma get_vehicle_status_returns_response_witness :
  let run :=
    get_vehicle_status (Script.externals ["fault"] 0) QScript.coders
      Script.car None Script.logged_in [] in
  exists r, fst (fst run) = QReturn r /\
            V2.error_message (V2.body r) <> None.
Proof.
  cbv zeta.
  destruct (get_vehicle_status_returns_response
              (Script.externals ["fault"] 0) QScript.coders
              Script.car None Script.logged_in [] _ _ _ (run_eta _))
    as (Hiff & _).
  eexists. split.
  - apply Hiff. vm_compute. do 5 right. left. reflexivity.
  - vm_compute. discriminate.
Defined.

(** X18.  [get_charging_status] hands back whatever response was
    decoded, with or without an error payload, and sends its request
    once.  The request has no application data and is stamped by the
    V3 coder with message id 5, the uid stored when the call began and
    the token stored when it ends; an event id is put into its body
    only when one was given.  Two network calls at most are made. *)
Theorem get_charging_status_returns_response {MessageListResp : Type}
        (X : Externals) (C : @Coders MessageListResp) vin_info event_id
        a h out a' new :
  get_charging_status X C vin_info event_id a h = (out, a', new) ->
  (forall r, In (Publish_query "516" 768 (ChrgRspData r)) new <->
             out = QReturn r) /\
  ((exists r, out = QReturn r) \/ exists e, out = QRaise (Escaped e)) /\
  (forall m, In (Publish_query "516" 768 (ChrgReqData m)) new ->
     V3.application_data m = None /\
     exists h',
       let stamped :=
         v3_initialize_message C h' (uid a) (token a') (vin vin_info)
           "516" 768 5 (new_MessageBodyV3 C) in
       V3.body m =
         match event_id with
         | Some e => {| V3.event_id := Some e;
                        V3.error_message := V3.error_message stamped |}
         | None => stamped
         end) /\
  (network_calls (base_of new) <= 2)%nat.
Proof.
  unfold get_charging_status. qrun.
  pose proof (get_token_network_calls X a (base_of h)) as Hnet.
  pose proof (get_token_quiet X a (base_of h)) as [_ Hfuel].
  destruct (get_token X a (base_of h)) as [[o a1] n1] eqn:Htok.
  cbn [fst snd] in Hnet, Hfuel.
  destruct o as [tok | e |]; [| | congruence].
  - apply get_token_returns_stored in Htok. subst tok. tidy.
    destruct (requests_post X _ _ _ _) as [[body jar] |];
      [destruct (bytes_decode X body) as [content |] |]; cbn [fst snd];
      intros Hrun; inversion Hrun; subst; clear Hrun;
      (split; [intros r; split; [intros Hin; in_made Hin | intros Hout] |]);
      try discriminate Hout.
    + inversion Hin; subst. reflexivity.
    + inversion Hout; subst.
      apply in_or_app. right. cbn. do 4 right. left. reflexivity.
    + split; [left; eauto |].
      split; [| count_calls].
      intros m Hin. in_made Hin. inversion Hin; subst.
      split; [destruct event_id; reflexivity |].
      eexists. destruct event_id; reflexivity.
    + split; [right; eauto |].
      split; [| count_calls].
      intros m Hin. in_made Hin. inversion Hin; subst.
      split; [destruct event_id; reflexivity |].
      eexists. destruct event_id; reflexivity.
    + split; [right; eauto |].
      split; [| count_calls].
      intros m Hin. in_made Hin. inversion Hin; subst.
      split; [destruct event_id; reflexivity |].
      eexists. destruct event_id; reflexivity.
  - intros Hrun; inversion Hrun; subst; clear Hrun.
    split; [intros r; split;
            [intros Hin; destruct (not_in_map_Base _ _ _ _ Hin)
            | discriminate] |].
    split; [right; eauto |].
    split; [intros m Hin; destruct (not_in_map_Base _ _ _ _ Hin) |].
    rewrite base_of_map_Base. lia.
Qed.

Lemma get_charging_status_returns_response_witness :
  let run :=
    get_charging_status (Script.externals ["tok"; "fault"] 600) QScript.coders
      Script.car (Some "ev-9") Script.logged_in [] in
  (exists r, fst (fst run) = QReturn r /\
             V3.error_message (V3.body r) <> None) /\
  network_calls (base_of (snd run)) = 2%nat.
Proof.
  cbv zeta.
  destruct (get_charging_status_returns_response
              (Script.externals ["tok"; "fault"] 600) QScript.coders
              Script.car (Some "ev-9") Script.logged_in [] _ _ _ (run_eta _))
    as (Hiff & _).
  split; [| vm_compute; reflexivity].
  eexists. split.
  - apply Hiff. vm_compute. do 10 right. left. reflexivity.
  - vm_compute. discriminate.
Defined.

(** X19.  [get_message_list] hands back whatever response was decoded,
    with or without an error payload, and sends its request once.  The
    request asks for the messages 1 to 5 of the group ["ALARM"] under
    protocol version 18; its body is stamped with the uid stored when
    the call began and the token stored when it ends, and an event id
    given to the call replaces the event id of the stamped body and
    nothing else.  Two network calls at most are made. *)
Theorem get_message_list_returns_response {MessageListResp : Type}
        (X : Externals) (C : @Coders MessageListResp) event_id
        a h out a' new :
  get_message_list X C event_id a h = (out, a', new) ->
  (forall r, In (Publish_query "531" 513 (MessageListRspData r)) new <->
             out = QReturn r) /\
  ((exists r, out = QReturn r) \/ exists e, out = QRaise (Escaped e)) /\
  (forall m, In (Publish_query "531" 513 (MessageListReqData m)) new ->
     V11.header m = {| protocol_version := 18 |} /\
     V11.application_data m =
       {| start_end_number := {| start_number := 1; end_number := 5 |};
          message_group := "ALARM" |} /\
     exists h',
       let stamped :=
         v11_initialize_message X h' (uid a) (Some (token a')) "531" 513 1
           (new_MessageBodyV11 X) in
       V11.body m =
         match event_id with
         | Some e => {| V11.uid := V11.uid stamped;
                        V11.event_id := Some e;
                        V11.error_message := V11.error_message stamped |}
         | None => stamped
         end) /\
  (network_calls (base_of new) <= 2)%nat.
Proof.
  unfold get_message_list. qrun.
  pose proof (get_token_network_calls X a (base_of h)) as Hnet.
  pose proof (get_token_quiet X a (base_of h)) as [_ Hfuel].
  destruct (get_token X a (base_of h)) as [[o a1] n1] eqn:Htok.
  cbn [fst snd] in Hnet, Hfuel.
  destruct o as [tok | e |]; [| | congruence].
  - apply get_token_returns_stored in Htok. subst tok. tidy.
    destruct (requests_post X _ _ _ _) as [[body jar] |];
      [destruct (bytes_decode X body) as [content |] |]; cbn [fst snd];
      intros Hrun; inversion Hrun; subst; clear Hrun;
      (split; [intros r; split; [intros Hin; in_made Hin | intros Hout] |]);
      try discriminate Hout.
    + inversion Hin; subst. reflexivity.
    + inversion Hout; subst.
      apply in_or_app. right. cbn. do 4 right. left. reflexivity.
    + split; [left; eauto |].
      split; [| count_calls].
      intros m Hin. in_made Hin. inversion Hin; subst.
      split; [reflexivity |]. split; [destruct event_id; reflexivity |].
      eexists. destruct event_id; reflexivity.
    + split; [right; eauto |].
      split; [| count_calls].
      intros m Hin. in_made Hin. inversion Hin; subst.
      split; [reflexivity |]. split; [destruct event_id; reflexivity |].
      eexists. destruct event_id; reflexivity.
    + split; [right; eauto |].
      split; [| count_calls].
      intros m Hin. in_made Hin. inversion Hin; subst.
      split; [reflexivity |]. split; [destruct event_id; reflexivity |].
      eexists. destruct event_id; reflexivity.
  - intros Hrun; inversion Hrun; subst; clear Hrun.
    split; [intros r; split;
            [intros Hin; destruct (not_in_map_Base _ _ _ _ Hin)
            | discriminate] |].
    split; [right; eauto |].
    split; [intros m Hin; destruct (not_in_map_Base _ _ _ _ Hin) |].
    rewrite base_of_map_Base. lia.
Qed.

Lemma get_message_list_returns_response_witness :
  let run :=
    get_message_list (Script.externals ["inbox"] 0) QScript.coders
      None Script.logged_in [] in
  exists r, fst (fst run) = QReturn r /\ V11.application_data r = "inbox".
Proof.
  cbv zeta.
  destruct (get_message_list_returns_response
              (Script.externals ["inbox"] 0) QScript.coders
              None Script.logged_in [] _ _ _ (run_eta _))
    as (Hiff & _).
  eexists. split.
  - apply Hiff. vm_compute. do 5 right. left. reflexivity.
  - vm_compute. reflexivity.
Defined.

Lemma append_alarm_switches_map {MessageListResp : Type}
      (C : @Coders MessageListResp) (l : list AlarmSwitch) :
  append_alarm_switches C l = l ++ map create_alarm_switch (MpAlarmSettingType C).
Proof.
  unfold append_alarm_switches.
  revert l. induction (MpAlarmSettingType C) as [| t ts IH]; intros l; cbn.
  - rewrite app_nil_r. reflexivity.
  - rewrite IH, <- app_assoc. reflexivity.
Qed.

(** X20.  [set_alarm_switches] decides on the decoded response: with an
    error payload it raises [ValueError] carrying the decoded payload
    (or the decoding error of the payload), without one it returns
    [None].  Before a response is decoded it can only end with the
    exception of the token refresh or of the transport.  Two network
    calls at most are made. *)
Theorem set_alarm_switches_outcome {MessageListResp : Type}
        (X : Externals) (C : @Coders MessageListResp) a h out a' new :
  set_alarm_switches X C a h = (out, a', new) ->
  (forall r, In (Publish_query "521" 513 (AlarmRspData r)) new ->
     match V11.error_message (V11.body r) with
     | Some payload =>
         out = QRaise (match bytes_decode X payload with
                       | Some msg => ValueError msg
                       | None => Escaped UnicodeDecodeError
                       end)
     | None => out = QReturn tt
     end) /\
  ((exists r, In (Publish_query "521" 513 (AlarmRspData r)) new) \/
   exists e, out = QRaise (Escaped e)) /\
  (network_calls (base_of new) <= 2)%nat.
Proof.
  unfold set_alarm_switches. qrun.
  pose proof (get_token_network_calls X a (base_of h)) as Hnet.
  pose proof (get_token_quiet X a (base_of h)) as [_ Hfuel].
  destruct (get_token X a (base_of h)) as [[o a1] n1] eqn:Htok.
  cbn [fst snd] in Hnet, Hfuel.
  destruct o as [tok | e |]; [| | congruence].
  - tidy.
    destruct (requests_post X _ _ _ _) as [[body jar] |];
      [destruct (bytes_decode X body) as [content |] |]; cbn [fst snd].
    + match goal with
      | |- context [V11.error_message (V11.body ?r)] =>
          set (rsp := r); destruct (V11.error_message (V11.body rsp)) as [payload |] eqn:Herr
      end.
      * destruct (bytes_decode X payload) as [msg |] eqn:Hdec; cbn [fst snd];
          tidy; intros Hrun; inversion Hrun; subst; clear Hrun;
          (split; [intros r Hin; in_made Hin; inversion Hin; subst;
                   fold rsp; rewrite Herr, Hdec; reflexivity |]);
          (split; [left; exists rsp; apply in_or_app; right; cbn;
                   do 4 right; left; reflexivity | count_calls]).
      * cbn [fst snd]. tidy.
        intros Hrun; inversion Hrun; subst; clear Hrun.
        split; [intros r Hin; in_made Hin; inversion Hin; subst;
                fold rsp; rewrite Herr; reflexivity |].
        split; [left; exists rsp; apply in_or_app; right; cbn;
                do 4 right; left; reflexivity | count_calls].
    + intros Hrun; inversion Hrun; subst; clear Hrun.
      split; [intros r Hin; in_made Hin |].
      split; [right; eauto | count_calls].
    + intros Hrun; inversion Hrun; subst; clear Hrun.
      split; [intros r Hin; in_made Hin |].
      split; [right; eauto | count_calls].
  - intros Hrun; inversion Hrun; subst; clear Hrun.
    split; [intros r Hin; destruct (not_in_map_Base _ _ _ _ Hin) |].
    split; [right; eauto |].
    rewrite base_of_map_Base. lia.
Qed.

Lemma set_alarm_switches_outcome_witness :
  fst (fst (set_alarm_switches (Script.externals ["fault"] 0) QScript.coders
              Script.logged_in [])) = QRaise (ValueError "err").
Proof.
  destruct (set_alarm_switches_outcome
              (Script.externals ["fault"] 0) QScript.coders
              Script.logged_in [] _ _ _ (run_eta _))
    as (Hrsp & _).
  refine (Hrsp {| V11.header := {| protocol_version := 17 |};
                  V11.body := QScript.answer_body_v11 "fault";
                  V11.application_data := tt |} _).
  vm_compute. do 5 right. left. reflexivity.
Defined.

(** X21.  The request of [set_alarm_switches] goes out under protocol
    version 17 and lists one switch per member of the enum of alarm
    setting types, in the order of the enum, each with both its alarm
    and its function switch on; its pin is the MD5 digest of the fixed
    text 123456, whatever the password of the session.  The body is
    stamped with the uid stored when the call began and the token
    stored when it ends. *)
Theorem set_alarm_switches_request {MessageListResp : Type}
        (X : Externals) (C : @Coders MessageListResp) a h out a' new m :
  set_alarm_switches X C a h = (out, a', new) ->
  In (Publish_query "521" 513 (AlarmReqData m)) new ->
  V11.header m = {| protocol_version := 17 |} /\
  map alarm_setting_type (alarm_switch_list (V11.application_data m)) =
    MpAlarmSettingType C /\
  Forall (fun s => alarm_switch s = true /\ function_switch s = true)
    (alarm_switch_list (V11.application_data m)) /\
  pin (V11.application_data m) = md5_hexdigest C (str_encode C "123456") /\
  exists h',
    V11.body m =
      v11_initialize_message X h' (uid a) (Some (token a')) "521" 513 1
        (new_MessageBodyV11 X).
Proof.
  assert (Hlist : map alarm_setting_type (append_alarm_switches C []) =
                  MpAlarmSettingType C /\
                  Forall (fun s => alarm_switch s = true /\
                                   function_switch s = true)
                    (append_alarm_switches C [])).
  { rewrite append_alarm_switches_map. cbn [app].
    induction (MpAlarmSettingType C) as [| t ts [IH1 IH2]]; cbn.
    - split; [reflexivity | constructor].
    - split; [f_equal; exact IH1 | constructor; [split; reflexivity | exact IH2]]. }
  destruct Hlist as [Htypes Hon].
  unfold set_alarm_switches. qrun.
  destruct (get_token X a (base_of h)) as [[o a1] n1] eqn:Htok.
  destruct o as [tok | e |].
  - apply get_token_returns_stored in Htok. subst tok. tidy.
    destruct (requests_post X _ _ _ _) as [[body jar] |];
      [destruct (bytes_decode X body) as [content |] |]; cbn [fst snd].
    + destruct (V11.error_message _) as [payload |];
        [destruct (bytes_decode X payload) |];
        cbn [fst snd]; tidy;
        intros Hrun Hin; inversion Hrun; subst; clear Hrun;
        in_made Hin; inversion Hin; subst;
        (split; [reflexivity |]); (split; [exact Htypes |]);
        (split; [exact Hon |]); (split; [reflexivity |]);
        eexists; reflexivity.
    + intros Hrun Hin; inversion Hrun; subst; clear Hrun.
      in_made Hin. inversion Hin; subst.
      split; [reflexivity |]. split; [exact Htypes |].
      split; [exact Hon |]. split; [reflexivity |].
      eexists. reflexivity.
    + intros Hrun Hin; inversion Hrun; subst; clear Hrun.
      in_made Hin. inversion Hin; subst.
      split; [reflexivity |]. split; [exact Htypes |].
      split; [exact Hon |]. split; [reflexivity |].
      eexists. reflexivity.
  - intros Hrun Hin; inversion Hrun; subst.
    destruct (not_in_map_Base _ _ _ _ Hin).
  - intros Hrun Hin; inversion Hrun; subst.
    destruct (not_in_map_Base _ _ _ _ Hin).
Qed.

Lemma set_alarm_switches_request_witness :
  exists m,
    nth_error (snd (set_alarm_switches (Script.externals ["ok"] 0)
                      QScript.coders Script.logged_in [])) 1 =
      Some (Publish_query "521" 513 (AlarmReqData m)) /\
    map alarm_setting_type (alarm_switch_list (V11.application_data m)) =
      [0; 1; 2] /\
    pin (V11.application_data m) = "e10adc3949ba59abbe56e057f20f883e".
Proof.
  eexists. split; [vm_compute; reflexivity |].
  match goal with
  | |- map _ (alarm_switch_list (V11.application_data ?m)) = _ /\ _ =>
      destruct (set_alarm_switches_request
                  (Script.externals ["ok"] 0) QScript.coders
                  Script.logged_in [] _ _ _ m (run_eta _))
        as (_ & Htypes & _ & Hpin & _)
  end.
  - vm_compute. right. left. reflexivity.
  - split; [exact Htypes | exact Hpin].
Defined.

(** ** A client without expiration *)

(** X22.  A client that stores no expiration, as every new client
    does, never logs in on its own when it sends a control command:
    the one network call is the POST of the request, the request is
    stamped with the stored uid and token as they are (both empty for
    a new client), and uid, token and expiration stay as they were. *)
Theorem command_without_expiration (X : Externals) vin_info rvc_req_type
        rvc_params event_id a h out a' new :
  send_vehicle_control_command X vin_info rvc_req_type rvc_params event_id a h
  = (out, a', new) ->
  token_expiration a = None ->
  login_calls new = 0%nat /\
  network_calls new = 1%nat /\
  uid a' = uid a /\ token a' = token a /\ token_expiration a' = None /\
  exists m,
    hd_error new = Some (Publish_json "510" 25857 (CtrlReqData m)) /\
    V2.body m =
      with_event_id event_id
        (v2_initialize_message X h (uid a) (token a) (vin vin_info)
           "510" 25857 1 (new_MessageBodyV2 X)).
Proof.
  intros Hrun Hnone. revert Hrun.
  unfold send_vehicle_control_command, send_request. run. tidy.
  rewrite (get_token_no_expiration X a h Hnone). cbn [fst snd]. tidy.
  destruct (requests_post X _ _ _ _) as [[body jar] |];
      [destruct (bytes_decode X body) as [content |] |]; cbn [fst snd];
    intros Hrun; inversion Hrun; subst; clear Hrun; cbn [hd_error];
    repeat (split; [first [reflexivity | exact Hnone] |]);
    eexists; (split; [reflexivity |]); destruct event_id; reflexivity.
Qed.

Lemma command_without_expiration_witness :
  let a := SaicApi_init "https://host" "abc" "secret" in
  let run :=
    send_vehicle_control_command (Script.externals ["done"] 0) Script.car
      [Byte.x01] [] None a [] in
  login_calls (snd run) = 0%nat /\
  uid (snd (fst run)) = "" /\ token (snd (fst run)) = "".
Proof.
  cbv zeta.
  destruct (command_without_expiration (Script.externals ["done"] 0)
              Script.car [Byte.x01] [] None
              (SaicApi_init "https://host" "abc" "secret") [] _ _ _
              (run_eta _) eq_refl)
    as (Hlog & _ & Hu & Ht & _).
  split; [exact Hlog |]. split; [exact Hu | exact Ht].
Defined.
